(** * Run-time type identification: [ATen/core/typeid.h]

    A shallow embedding of the header's [TypeIdentifier], the
    [detail::TypeMetaData] operation tables built by
    [detail::TypeMetaDataRegistry<T>], and the [TypeMeta] handle, followed by
    the properties the specification states about them.

    C++ types are the template arguments of the header.  What the compiler
    knows about a type ([sizeof], the [<type_traits>] predicates, whether a
    default constructor exists and what it does) is collected in the class
    [Platform]; every definition and theorem is parametric in it. *)

From Stdlib Require Import ZArith NArith List String Bool Lia.
Import ListNotations.
Local Open Scope Z_scope.

(** ** C++ types *)

(** The types the header names in [CAFFE_PREALLOCATED_KNOWN_TYPE], and, under
    [T_known], any other type; [T_known s] is the type spelled [s] where it
    is registered with [CAFFE_KNOWN_TYPE]. *)
Inductive CxxType : Type :=
| T_uint8_t | T_int8_t | T_int16_t | T_int | T_int64_t | T_Half | T_float
| T_double | T_ComplexHalf | T_complex_float | T_complex_double
| T_Tensor | T_string | T_bool | T_uint16_t | T_char
| T_unique_ptr_mutex | T_unique_ptr_atomic_bool
| T_vector_int32_t | T_vector_int64_t | T_vector_unsigned_long
| T_bool_ptr | T_char_ptr | T_int_ptr
| T_long | T_vector_long
| T_CaffeHighestPreallocatedTypeId
| T_known (spelling : string).

Definition CxxType_eq_dec (a b : CxxType) : {a = b} + {a <> b}.
Proof. decide equality. apply string_dec. Defined.

Definition CxxType_eqb (a b : CxxType) : bool :=
  if CxxType_eq_dec a b then true else false.

(** How a type can be default-constructed.  The state of an object is
    abstracted to an integer (the data member [x] of a test class). *)
Inductive DefaultCtor : Type :=
| ctor_deleted                 (* no usable default constructor *)
| ctor_trivial                 (* implicit constructor, initialises nothing *)
| ctor_user_provided (v : Z).  (* runs user code, leaves the object in state v *)

(** What the translation environment fixes: one preprocessor symbol, the
    compiler's knowledge of each type, and [at::demangle_type<T>()]. *)
Class Platform : Type := {
  CAFFE2_UNIQUE_LONG_TYPEMETA : bool;
  sizeof : CxxType -> Z;
  is_fundamental : CxxType -> bool;
  is_pointer : CxxType -> bool;
  default_ctor : CxxType -> DefaultCtor;
  is_copy_assignable : CxxType -> bool;
  demangle_type : CxxType -> string
}.

(** [std::is_default_constructible<T>::value] *)
Definition is_default_constructible `{Platform} (T : CxxType) : bool :=
  match default_ctor T with
  | ctor_deleted => false
  | ctor_trivial | ctor_user_provided _ => true
  end.

(** ** Exceptions and results *)

Inductive Exception : Type :=
| RuntimeTypeLogicError (msg : string)
| TypeIdsExhausted.

Inductive Result (A : Type) : Type :=
| Ok (a : A)
| Raise (e : Exception).
Arguments Ok {A} a.
Arguments Raise {A} e.

(** ** [class TypeIdentifier : IdWrapper<TypeIdentifier, uint16_t>] *)

Module TypeIdentifier.

(** [IdWrapper] stores one value of the underlying type, [uint16_t]. *)
Record t : Type := Build { underlyingId : Z }.

Definition uint16_max : Z := 65535.

(** [constexpr explicit TypeIdentifier(uint16_t id)]: the argument is
    converted to [uint16_t], that is, reduced modulo 2^16. *)
Definition make (id : Z) : t := {| underlyingId := id mod 65536 |}.

(** [static constexpr TypeIdentifier uninitialized()] *)
Definition uninitialized : t := make 11.

(** [operator<(TypeIdentifier lhs, TypeIdentifier rhs)] *)
Definition lt (lhs rhs : t) : bool := underlyingId lhs <? underlyingId rhs.

(** [IdWrapper]'s [operator==]: equality of the underlying ids. *)
Definition eqb (lhs rhs : t) : bool := underlyingId lhs =? underlyingId rhs.

(** Neither identifier is less than the other. *)
Definition incomparable (a b : t) : Prop :=
  lt a b = false /\ lt b a = false.

(** The state behind [Get<T>()]: the counter of [createTypeId] and, for
    every type, the function-local [static const TypeIdentifier type_id]
    of the [Get<T>] that [CAFFE_KNOWN_TYPE(T)] defines ([None] until the
    first call initialises it). *)
Record IdState : Type := {
  counter : Z;
  type_id : CxxType -> option t
}.

Definition M (A : Type) : Type := IdState -> Result (A * IdState).

Definition ret {A : Type} (a : A) : M A := fun s => Ok (a, s).

Definition bind {A B : Type} (c : M A) (k : A -> M B) : M B := fun s =>
  match c s with
  | Ok (a, s') => k a s'
  | Raise e => Raise e
  end.

Definition set_type_id (T : CxxType) (i : t) (f : CxxType -> option t)
  : CxxType -> option t :=
  fun U => if CxxType_eqb U T then Some i else f U.

Section WithPlatform.
Context `{Platform}.

(** The invocations of [CAFFE_PREALLOCATED_KNOWN_TYPE(PreallocatedId, T)],
    in the order of the header. *)
Definition preallocated : list (Z * CxxType) :=
  [ (0, T_uint8_t); (1, T_int8_t); (2, T_int16_t); (3, T_int);
    (4, T_int64_t); (5, T_Half); (6, T_float); (7, T_double);
    (8, T_ComplexHalf); (9, T_complex_float); (10, T_complex_double);
    (12, T_Tensor); (13, T_string); (14, T_bool); (15, T_uint16_t);
    (16, T_char); (17, T_unique_ptr_mutex); (18, T_unique_ptr_atomic_bool);
    (19, T_vector_int32_t); (20, T_vector_int64_t);
    (21, T_vector_unsigned_long); (22, T_bool_ptr); (23, T_char_ptr);
    (24, T_int_ptr) ]
  ++ (if CAFFE2_UNIQUE_LONG_TYPEMETA
      then [ (25, T_long); (26, T_vector_long) ] else [])
  ++ [ (27, T_CaffeHighestPreallocatedTypeId) ].

(** The [PreallocatedId] of the specialisation of [Get] for [T], when the
    header has one. *)
Definition preallocated_id (T : CxxType) : option Z :=
  match find (fun e => CxxType_eqb (snd e) T) preallocated with
  | Some e => Some (fst e)
  | None => None
  end.

(** Modelled from the spec: the state at program start.  No [Get<T>] has
    run, and the counter of [createTypeId] is seeded one past the largest
    reserved constant, the id of [_CaffeHighestPreallocatedTypeId]. *)
Definition initial : IdState :=
  {| counter := 27 + 1; type_id := fun _ => None |}.

(** Modelled from the spec: [TypeIdentifier::createTypeId] is declared in
    the header and defined elsewhere.  It reads a global counter, seeded
    one past the largest reserved constant, with a fetch-and-increment,
    and fails fast instead of issuing a value outside the range of the
    identifier's width. *)
Definition createTypeId : M t := fun s =>
  if uint16_max <? counter s
  then Raise TypeIdsExhausted
  else Ok (make (counter s),
           {| counter := counter s + 1; type_id := type_id s |}).

(** [template <typename T> static TypeIdentifier Get()], as the two
    registration macros specialise it: a constant for a preallocated
    type, and otherwise a function-local static initialised by
    [createTypeId()] on the first call. *)
Definition Get (T : CxxType) : M t := fun s =>
  match preallocated_id T with
  | Some id => Ok (make id, s)
  | None =>
      match type_id s T with
      | Some i => Ok (i, s)
      | None =>
          match createTypeId s with
          | Ok (i, s') =>
              Ok (i, {| counter := counter s';
                        type_id := set_type_id T i (type_id s') |})
          | Raise e => Raise e
          end
      end
  end.

(** What holds of the allocator's state throughout a run: the counter stays
    above the reserved ids and within one past the largest [uint16_t]; every
    cached id belongs to a type without a preallocated id, lies above 27 and
    below the counter; and no id is cached for two types. *)
Definition ids_wf (s : IdState) : Prop :=
  27 < counter s <= uint16_max + 1 /\
  (forall T i, type_id s T = Some i ->
     preallocated_id T = None /\ 27 < underlyingId i < counter s) /\
  (forall T U i, type_id s T = Some i -> type_id s U = Some i -> T = U).

End WithPlatform.

End TypeIdentifier.

(** ** [namespace detail] *)

Module detail.

(** *** Element storage

    The typed functions see storage as an array of [T]: an address counts
    elements, so that [typed_ptr + i] is [ptr + i]. *)
Inductive Cell : Type :=
| raw                 (* storage that holds no object *)
| indeterminate       (* an object whose value is indeterminate *)
| object (v : Z).     (* an object in state v *)

Definition Memory : Type := Z -> Cell.

Definition store (p : Z) (c : Cell) (m : Memory) : Memory :=
  fun q => if q =? p then c else m q.

(** [for (size_t i = 0; i < n; ++i) body(i)] *)
Definition for_loop {S : Type} (n : N) (body : Z -> S -> S) (s : S) : S :=
  fold_left (fun acc i => body (Z.of_nat i) acc) (seq 0 (N.to_nat n)) s.

(** *** The functions an operation table can point to

    A non-null function pointer is the name of the template instance it
    points to; [None] is [nullptr]. *)
Inductive PlacementNew : Type :=
| Ctor_at (T : CxxType)              (* &_Ctor<T> *)
| CtorNotDefault_at (T : CxxType).   (* &_CtorNotDefault<T> *)

Inductive TypedCopy : Type :=
| Copy_at (T : CxxType)              (* &_Copy<T> *)
| CopyNotAllowed_at (T : CxxType).   (* &_CopyNotAllowed<T> *)

Inductive TypedDestructor : Type :=
| Dtor_at (T : CxxType).             (* _Dtor<T> *)

(** [struct TypeMetaData]; [name_] is a [const char*]. *)
Record TypeMetaData : Type := {
  itemsize_ : Z;
  ctor_ : option PlacementNew;
  copy_ : option TypedCopy;
  dtor_ : option TypedDestructor;
  id_ : TypeIdentifier.t;
  name_ : option string
}.

(** Modelled from the spec: [_ThrowRuntimeTypeLogicError] is declared in the
    header and defined elsewhere; it turns the illegal invocation into a
    reported failure that carries the message. *)
Definition _ThrowRuntimeTypeLogicError {A : Type} (msg : string) : Result A :=
  Raise (RuntimeTypeLogicError msg).

(** [_TypeName<T>()] returns [#T], the spelling of the type in the
    registration macro. *)
Definition _TypeName (T : CxxType) : string :=
  match T with
  | T_uint8_t => "uint8_t"
  | T_int8_t => "int8_t"
  | T_int16_t => "int16_t"
  | T_int => "int"
  | T_int64_t => "int64_t"
  | T_Half => "at::Half"
  | T_float => "float"
  | T_double => "double"
  | T_ComplexHalf => "at::ComplexHalf"
  | T_complex_float => "std::complex<float>"
  | T_complex_double => "std::complex<double>"
  | T_Tensor => "Tensor"
  | T_string => "std::string"
  | T_bool => "bool"
  | T_uint16_t => "uint16_t"
  | T_char => "char"
  | T_unique_ptr_mutex => "std::unique_ptr<std::mutex>"
  | T_unique_ptr_atomic_bool => "std::unique_ptr<std::atomic<bool>>"
  | T_vector_int32_t => "std::vector<int32_t>"
  | T_vector_int64_t => "std::vector<int64_t>"
  | T_vector_unsigned_long => "std::vector<unsigned long>"
  | T_bool_ptr => "bool*"
  | T_char_ptr => "char*"
  | T_int_ptr => "int*"
  | T_long => "long"
  | T_vector_long => "std::vector<long>"
  | T_CaffeHighestPreallocatedTypeId => "_CaffeHighestPreallocatedTypeId"
  | T_known spelling => spelling
  end%string.

Section WithPlatform.
Context `{Platform}.

(** [new (p) T]: default-initialisation.  A user-provided constructor runs;
    a trivial one leaves the new object with an indeterminate value.  (The
    header instantiates [_Ctor<T>] only for default-constructible [T], so the
    last case is never reached through [_PickCtor].) *)
Definition placement_new (T : CxxType) (p : Z) (m : Memory) : Memory :=
  match default_ctor T with
  | ctor_user_provided v => store p (object v) m
  | ctor_trivial => store p indeterminate m
  | ctor_deleted => m
  end.

(** The element [new (p) T] leaves at [p] when [T] is default-constructible,
    and the one [new (p) T()], value-initialisation, would leave: an object
    whose constructor is not user-provided is zero-initialised by the
    latter only. *)
Definition default_initialized (T : CxxType) : Cell :=
  match default_ctor T with
  | ctor_user_provided v => object v
  | ctor_trivial | ctor_deleted => indeterminate
  end.

Definition value_initialized (T : CxxType) : Cell :=
  match default_ctor T with
  | ctor_user_provided v => object v
  | ctor_trivial | ctor_deleted => object 0
  end.

Definition _Ctor (T : CxxType) (ptr : Z) (n : N) (m : Memory) : Result Memory :=
  Ok (for_loop n (fun i acc => placement_new T (ptr + i) acc) m).

Definition _CtorNotDefault (T : CxxType) (ptr : Z) (n : N) (m : Memory)
  : Result Memory :=
  _ThrowRuntimeTypeLogicError
    ("Type " ++ demangle_type T ++ " is not default-constructible.")%string.

Definition _PickCtor (T : CxxType) : PlacementNew :=
  if is_default_constructible T then Ctor_at T else CtorNotDefault_at T.

(** [typed_dst[i] = typed_src[i]], with the assignment operator abstracted
    to a copy of the object's state. *)
Definition _Copy (T : CxxType) (src dst : Z) (n : N) (m : Memory)
  : Result Memory :=
  Ok (for_loop n (fun i acc => store (dst + i) (acc (src + i)) acc) m).

Definition _CopyNotAllowed (T : CxxType) (src dst : Z) (n : N) (m : Memory)
  : Result Memory :=
  _ThrowRuntimeTypeLogicError
    ("Type " ++ demangle_type T ++ " does not allow assignment.")%string.

Definition _PickCopy (T : CxxType) : TypedCopy :=
  if is_copy_assignable T then Copy_at T else CopyNotAllowed_at T.

(** [typed_ptr[i].~T()] ends the lifetime of the element. *)
Definition _Dtor (T : CxxType) (ptr : Z) (n : N) (m : Memory) : Result Memory :=
  Ok (for_loop n (fun i acc => store (ptr + i) raw acc) m).

(** Calls through the function pointers of a table. *)
Definition call_ctor (f : PlacementNew) : Z -> N -> Memory -> Result Memory :=
  match f with
  | Ctor_at T => _Ctor T
  | CtorNotDefault_at T => _CtorNotDefault T
  end.

Definition call_copy (f : TypedCopy) : Z -> Z -> N -> Memory -> Result Memory :=
  match f with
  | Copy_at T => _Copy T
  | CopyNotAllowed_at T => _CopyNotAllowed T
  end.

Definition call_dtor (f : TypedDestructor) : Z -> N -> Memory -> Result Memory :=
  match f with
  | Dtor_at T => _Dtor T
  end.

(** The initialiser of [TypeMetaDataRegistry<T, ...>::data]: the
    specialisation for fundamental and pointer types, and the one for every
    other type.  Evaluating it calls [TypeIdentifier::Get<T>()]. *)
Definition TypeMetaDataRegistry_data (T : CxxType)
  : TypeIdentifier.M TypeMetaData :=
  if is_fundamental T || is_pointer T
  then
    TypeIdentifier.bind (TypeIdentifier.Get T) (fun i =>
    TypeIdentifier.ret
      {| itemsize_ := sizeof T; ctor_ := None; copy_ := None; dtor_ := None;
         id_ := i; name_ := Some (_TypeName T) |})
  else
    TypeIdentifier.bind (TypeIdentifier.Get T) (fun i =>
    TypeIdentifier.ret
      {| itemsize_ := sizeof T; ctor_ := Some (_PickCtor T);
         copy_ := Some (_PickCopy T); dtor_ := Some (Dtor_at T);
         id_ := i; name_ := Some (_TypeName T) |}).

(** The members of the record for [T] that do not depend on the run. *)
Definition table_for (T : CxxType) (r : TypeMetaData) : Prop :=
  itemsize_ r = sizeof T /\
  name_ r = Some (_TypeName T) /\
  (is_fundamental T || is_pointer T = true ->
     ctor_ r = None /\ copy_ r = None /\ dtor_ r = None) /\
  (is_fundamental T || is_pointer T = false ->
     ctor_ r = Some (_PickCtor T) /\ copy_ r = Some (_PickCopy T) /\
     dtor_ r = Some (Dtor_at T)).

End WithPlatform.

End detail.

(** ** [class TypeMeta] *)

Module TypeMeta.
Import detail.

(** The objects of static storage duration a handle can point to.  Distinct
    objects have distinct addresses, so a pointer is the name of its
    object. *)
Inductive StaticObject : Type :=
| uninitialized_at                 (* &TypeMeta::uninitialized_ *)
| data_at (T : CxxType).           (* &detail::TypeMetaDataRegistry<T>::data *)

Definition StaticObject_eqb (p q : StaticObject) : bool :=
  match p, q with
  | uninitialized_at, uninitialized_at => true
  | data_at T, data_at U => CxxType_eqb T U
  | _, _ => false
  end.

(** The handle: its only data member is [const detail::TypeMetaData* data_]. *)
Record t : Type := Build { data_ : StaticObject }.

(** [static constexpr detail::TypeMetaData uninitialized_] *)
Definition uninitialized_ : TypeMetaData :=
  {| itemsize_ := 0; ctor_ := None; copy_ := None; dtor_ := None;
     id_ := TypeIdentifier.uninitialized;
     name_ := Some "nullptr (uninitialized)"%string |}.

(** An object of static storage duration before its dynamic initialisation:
    every member is zero. *)
Definition zero_initialized : TypeMetaData :=
  {| itemsize_ := 0; ctor_ := None; copy_ := None; dtor_ := None;
     id_ := TypeIdentifier.Build 0; name_ := None |}.

(** The global state of a program that includes the header: the state of
    the identifier allocator, and each [TypeMetaDataRegistry<T>::data]
    ([None] until its initialiser has run). *)
Record Globals : Type := {
  ids : TypeIdentifier.IdState;
  registry : CxxType -> option TypeMetaData
}.

Definition set_registry (T : CxxType) (r : TypeMetaData)
  (f : CxxType -> option TypeMetaData) : CxxType -> option TypeMetaData :=
  fun U => if CxxType_eqb U T then Some r else f U.

(** [*p] *)
Definition deref (g : Globals) (p : StaticObject) : TypeMetaData :=
  match p with
  | uninitialized_at => uninitialized_
  | data_at T =>
      match registry g T with
      | Some r => r
      | None => zero_initialized
      end
  end.

(** [constexpr TypeMeta() noexcept : data_(&uninitialized_)] *)
Definition default : t := {| data_ := uninitialized_at |}.

(** The accessors read the record the handle points to. *)
Definition id (g : Globals) (m : t) : TypeIdentifier.t := id_ (deref g (data_ m)).
Definition itemsize (g : Globals) (m : t) : Z := itemsize_ (deref g (data_ m)).
Definition ctor (g : Globals) (m : t) : option PlacementNew := ctor_ (deref g (data_ m)).
Definition copy (g : Globals) (m : t) : option TypedCopy := copy_ (deref g (data_ m)).
Definition dtor (g : Globals) (m : t) : option TypedDestructor := dtor_ (deref g (data_ m)).
Definition name (g : Globals) (m : t) : option string := name_ (deref g (data_ m)).

(** [template <class T> static constexpr const char* TypeName()] *)
Definition TypeName (g : Globals) (T : CxxType) : option string :=
  name_ (deref g (data_at T)).

(** [template <typename T> static constexpr TypeMeta Make()] *)
Definition Make (T : CxxType) : t := {| data_ := data_at T |}.

(** [template <typename T> constexpr bool Match() const] *)
Definition Match (m : t) (T : CxxType) : bool :=
  StaticObject_eqb (data_ m) (data_ (Make T)).

(** [operator==] and [operator!=] *)
Definition eqb (lhs rhs : t) : bool := StaticObject_eqb (data_ lhs) (data_ rhs).
Definition neqb (lhs rhs : t) : bool := negb (eqb lhs rhs).

Section WithPlatform.
Context `{Platform}.

(** [template <class T> static constexpr size_t ItemSize()] *)
Definition ItemSize (T : CxxType) : Z := sizeof T.

(** [template <class T> static TypeIdentifier Id()] *)
Definition Id (T : CxxType) (g : Globals)
  : Result (TypeIdentifier.t * Globals) :=
  match TypeIdentifier.Get T (ids g) with
  | Ok (i, s) => Ok (i, {| ids := s; registry := registry g |})
  | Raise e => Raise e
  end.

(** The dynamic initialisation of [TypeMetaDataRegistry<T>::data]; it runs
    once for each [T]. *)
Definition initialize_data (T : CxxType) (g : Globals) : Result Globals :=
  match registry g T with
  | Some _ => Ok g
  | None =>
      match TypeMetaDataRegistry_data T (ids g) with
      | Ok (r, s) => Ok {| ids := s; registry := set_registry T r (registry g) |}
      | Raise e => Raise e
      end
  end.

Definition start : Globals :=
  {| ids := TypeIdentifier.initial; registry := fun _ => None |}.

(** What changes the global state: a call of [Get<T>()] and the
    initialisation of a registry record. *)
Inductive step : Globals -> Globals -> Prop :=
| step_Get (T : CxxType) (g g' : Globals) (i : TypeIdentifier.t) :
    Id T g = Ok (i, g') -> step g g'
| step_initialize (T : CxxType) (g g' : Globals) :
    initialize_data T g = Ok g' -> step g g'.

Inductive reachable : Globals -> Prop :=
| reachable_start : reachable start
| reachable_step (g g' : Globals) : reachable g -> step g g' -> reachable g'.

(** [i] is the id a call of [Get<T>] returns in state [s], without
    allocating. *)
Definition id_of (s : TypeIdentifier.IdState) (T : CxxType)
  (i : TypeIdentifier.t) : Prop :=
  match TypeIdentifier.preallocated_id T with
  | Some id => i = TypeIdentifier.make id
  | None => TypeIdentifier.type_id s T = Some i
  end.

(** What holds of the global state throughout a run. *)
Definition globals_wf (g : Globals) : Prop :=
  TypeIdentifier.ids_wf (ids g) /\
  (forall T r, registry g T = Some r -> table_for T r /\ id_of (ids g) T (id_ r)).

(** Any number of steps. *)
Inductive steps : Globals -> Globals -> Prop :=
| steps_refl (g : Globals) : steps g g
| steps_next (g g' g'' : Globals) : steps g g' -> step g' g'' -> steps g g''.

End WithPlatform.

End TypeMeta.

(** The operators the header declares on its two classes; the equality
    operators of [TypeIdentifier] come from [IdWrapper]. *)
Inductive ClassName : Type := class_TypeIdentifier | class_TypeMeta.

Inductive OperatorName : Type := op_eq | op_ne | op_lt | op_shl.

Definition declared_operators : list (OperatorName * ClassName) :=
  [ (op_eq, class_TypeIdentifier); (op_ne, class_TypeIdentifier);
    (op_lt, class_TypeIdentifier); (op_shl, class_TypeIdentifier);
    (op_eq, class_TypeMeta); (op_ne, class_TypeMeta) ].

Definition OperatorName_eqb (a b : OperatorName) : bool :=
  match a, b with
  | op_eq, op_eq | op_ne, op_ne | op_lt, op_lt | op_shl, op_shl => true
  | _, _ => false
  end.

Definition ClassName_eqb (a b : ClassName) : bool :=
  match a, b with
  | class_TypeIdentifier, class_TypeIdentifier
  | class_TypeMeta, class_TypeMeta => true
  | _, _ => false
  end.

Definition declares (o : OperatorName) (c : ClassName) : bool :=
  existsb (fun e => OperatorName_eqb (fst e) o && ClassName_eqb (snd e) c)
    declared_operators.

(** Whether the text [part] occurs somewhere in [whole]. *)
Definition occurs_in (part whole : string) : bool :=
  match String.index 0 part whole with
  | Some _ => true
  | None => false
  end.

(** ** An example platform

    LP64, with the types registered by a test translation unit:
    the demangler spells some types differently from their registration;
    [Counter] has a user-provided default constructor that sets [x = 42],
    [Pod] is an aggregate with a trivial default constructor, [NoDefault]
    has no default constructor, and [NoAssignment] deletes its assignment
    operator. *)
Definition lp64 : Platform := {|
  CAFFE2_UNIQUE_LONG_TYPEMETA := false;
  sizeof := fun T =>
    match T with
    | T_uint8_t | T_int8_t | T_bool | T_char => 1
    | T_int16_t | T_Half | T_uint16_t => 2
    | T_int | T_float | T_ComplexHalf => 4
    | T_int64_t | T_double | T_complex_float | T_long => 8
    | T_complex_double => 16
    | T_Tensor => 8
    | T_string => 32
    | T_unique_ptr_mutex | T_unique_ptr_atomic_bool => 8
    | T_vector_int32_t | T_vector_int64_t | T_vector_unsigned_long
    | T_vector_long => 24
    | T_bool_ptr | T_char_ptr | T_int_ptr => 8
    | T_CaffeHighestPreallocatedTypeId => 1
    | T_known _ => 4
    end;
  is_fundamental := fun T =>
    match T with
    | T_uint8_t | T_int8_t | T_int16_t | T_int | T_int64_t | T_float
    | T_double | T_bool | T_uint16_t | T_char | T_long => true
    | _ => false
    end;
  is_pointer := fun T =>
    match T with
    | T_bool_ptr | T_char_ptr | T_int_ptr => true
    | _ => false
    end;
  default_ctor := fun T =>
    match T with
    | T_known s =>
        if String.eqb s "Counter" then ctor_user_provided 42
        else if String.eqb s "NoDefault" then ctor_deleted
        else if String.eqb s "NoAssignment" then ctor_user_provided 42
        else ctor_trivial
    | T_complex_float | T_complex_double | T_Tensor | T_string
    | T_unique_ptr_mutex | T_unique_ptr_atomic_bool | T_vector_int32_t
    | T_vector_int64_t | T_vector_unsigned_long | T_vector_long =>
        ctor_user_provided 0
    | _ => ctor_trivial
    end;
  is_copy_assignable := fun T =>
    match T with
    | T_unique_ptr_mutex | T_unique_ptr_atomic_bool => false
    | T_known s => negb (String.eqb s "NoAssignment")
    | _ => true
    end;
  demangle_type := fun T =>
    match T with
    | T_Tensor => "caffe2::Tensor"
    | T_unique_ptr_mutex =>
        "std::unique_ptr<std::mutex, std::default_delete<std::mutex> >"
    | T_CaffeHighestPreallocatedTypeId =>
        "caffe2::_CaffeHighestPreallocatedTypeId"
    | _ => detail._TypeName T
    end%string
|}.

(** The program state once the record of [T] has been initialised, first
    of all records. *)
Definition after_initialize (P : Platform) (T : CxxType) : TypeMeta.Globals :=
  match @TypeMeta.initialize_data P T TypeMeta.start with
  | Ok g => g
  | Raise _ => TypeMeta.start
  end.

Definition Counter : CxxType := T_known "Counter".
Definition Pod : CxxType := T_known "Pod".
Definition NoDefault : CxxType := T_known "NoDefault".
Definition NoAssignment : CxxType := T_known "NoAssignment".

(** Case analysis on an entry of the reserved table. *)
Ltac split_table Hin :=
  unfold TypeIdentifier.preallocated_id, TypeIdentifier.preallocated in *;
  destruct CAFFE2_UNIQUE_LONG_TYPEMETA;
  simpl in Hin;
  repeat (destruct Hin as [Hin | Hin]; [inversion Hin; subst; clear Hin | ]);
  try contradiction.

(** ** Properties *)

Lemma CxxType_eqb_eq (a b : CxxType) : CxxType_eqb a b = true <-> a = b.
Proof.
  unfold CxxType_eqb. destruct (CxxType_eq_dec a b) as [e | ne].
  - split; trivial.
  - split; [discriminate | intro e; contradiction].
Qed.

Lemma CxxType_eqb_refl (a : CxxType) : CxxType_eqb a a = true.
Proof. apply CxxType_eqb_eq. reflexivity. Qed.

Lemma CxxType_eqb_neq (a b : CxxType) : a <> b -> CxxType_eqb a b = false.
Proof.
  intro ne. destruct (CxxType_eqb a b) eqn:E; trivial.
  apply CxxType_eqb_eq in E. contradiction.
Qed.

Section IdentifierProperties.
Context `{Platform}.
Import TypeIdentifier.

(** Every id of the table lies between 0 and 27 and is not 11. *)
Lemma preallocated_bounds (id : Z) (T : CxxType) :
  In (id, T) preallocated -> 0 <= id <= 27 /\ id <> 11.
Proof. intro Hin. split_table Hin; lia. Qed.

(** No type is listed twice: the table determines the id of its types. *)
Lemma In_preallocated_id (id : Z) (T : CxxType) :
  In (id, T) preallocated -> preallocated_id T = Some id.
Proof.
  intro Hin. split_table Hin; reflexivity.
Qed.

Lemma preallocated_id_In (id : Z) (T : CxxType) :
  preallocated_id T = Some id -> In (id, T) preallocated.
Proof.
  unfold preallocated_id.
  destruct (find _ preallocated) as [[id' T'] | ] eqn:F; [ | discriminate].
  intro E. injection E as <-. apply find_some in F as [Hin Heq].
  simpl in Heq. apply CxxType_eqb_eq in Heq. subst. exact Hin.
Qed.

Lemma make_small (z : Z) : 0 <= z <= uint16_max -> underlyingId (make z) = z.
Proof. unfold uint16_max. intro Hz. simpl. apply Z.mod_small. lia. Qed.

Lemma make_range (z : Z) : 0 <= underlyingId (make z) <= uint16_max.
Proof.
  unfold uint16_max. simpl.
  pose proof (Z.mod_pos_bound z 65536 ltac:(lia)). lia.
Qed.

Lemma underlyingId_inj (a b : t) : underlyingId a = underlyingId b -> a = b.
Proof. destruct a, b. simpl. intros ->. reflexivity. Qed.

End IdentifierProperties.

(** *** The allocator's invariant *)

Section AllocatorProperties.
Context `{Platform}.
Import TypeIdentifier.

Lemma initial_wf : ids_wf initial.
Proof.
  unfold ids_wf, initial, uint16_max. simpl.
  repeat split; try lia; discriminate.
Qed.

Lemma Get_preallocated (T : CxxType) (id : Z) (s : IdState) :
  preallocated_id T = Some id -> Get T s = Ok (make id, s).
Proof. intro E. unfold Get. rewrite E. reflexivity. Qed.

(** A call of [Get<T>] for a type without a preallocated id either reads the
    cached id or takes the counter's value and caches it. *)
Lemma Get_dynamic (T : CxxType) (s s' : IdState) (i : t) :
  preallocated_id T = None -> Get T s = Ok (i, s') ->
  (type_id s T = Some i /\ s' = s) \/
  (type_id s T = None /\ counter s <= uint16_max /\ i = make (counter s) /\
   s' = {| counter := counter s + 1;
           type_id := set_type_id T i (type_id s) |}).
Proof.
  intros E G. unfold Get in G. rewrite E in G.
  destruct (type_id s T) as [j | ] eqn:C.
  - injection G as <- <-. left. split; reflexivity.
  - unfold createTypeId in G.
    destruct (uint16_max <? counter s) eqn:L; [discriminate | ].
    apply Z.ltb_ge in L. injection G as <- <-. right. simpl.
    repeat split; trivial.
Qed.

Lemma set_type_id_same (T : CxxType) (i : t) (f : CxxType -> option t) :
  set_type_id T i f T = Some i.
Proof. unfold set_type_id. rewrite CxxType_eqb_refl. reflexivity. Qed.

Lemma set_type_id_other (T U : CxxType) (i : t) (f : CxxType -> option t) :
  U <> T -> set_type_id T i f U = f U.
Proof. intro ne. unfold set_type_id. rewrite CxxType_eqb_neq; trivial. Qed.

(** After [Get<T>] returned [i], later calls find [i]: for a type without a
    preallocated id it is cached. *)
Lemma Get_caches (T : CxxType) (s s' : IdState) (i : t) :
  preallocated_id T = None -> Get T s = Ok (i, s') -> type_id s' T = Some i.
Proof.
  intros E G. destruct (Get_dynamic T s s' i E G) as [[C ->] | (_ & _ & _ & ->)].
  - exact C.
  - simpl. apply set_type_id_same.
Qed.

(** [Get] never changes the id cached for any type. *)
Lemma Get_keeps (T U : CxxType) (s s' : IdState) (i j : t) :
  Get T s = Ok (i, s') -> type_id s U = Some j -> type_id s' U = Some j.
Proof.
  intros G C. destruct (preallocated_id T) as [id | ] eqn:E.
  - rewrite (Get_preallocated T id s E) in G. injection G as _ <-. exact C.
  - destruct (Get_dynamic T s s' i E G) as [[_ ->] | (N & _ & _ & ->)]; trivial.
    simpl. rewrite set_type_id_other; trivial. congruence.
Qed.

Lemma Get_wf (T : CxxType) (s s' : IdState) (i : t) :
  ids_wf s -> Get T s = Ok (i, s') -> ids_wf s'.
Proof.
  intros W G. destruct (preallocated_id T) as [id | ] eqn:E.
  - rewrite (Get_preallocated T id s E) in G. injection G as _ <-. exact W.
  - destruct (Get_dynamic T s s' i E G) as [[_ ->] | (N & L & -> & ->)]; trivial.
    destruct W as (Wc & Wr & Wi).
    assert (Hc : underlyingId (make (counter s)) = counter s)
      by (apply make_small; lia).
    clear N.
    unfold ids_wf, uint16_max in *. simpl. split; [lia | split].
    + intros U j C. destruct (CxxType_eq_dec U T) as [-> | ne].
      * rewrite set_type_id_same in C. injection C as <-.
        split; [exact E | lia].
      * rewrite set_type_id_other in C by exact ne.
        destruct (Wr U j C) as [P B]. split; [exact P | lia].
    + intros U V j CU CV.
      destruct (CxxType_eq_dec U T) as [-> | neU];
        destruct (CxxType_eq_dec V T) as [-> | neV]; trivial.
      * rewrite set_type_id_same in CU. injection CU as <-.
        rewrite set_type_id_other in CV by exact neV.
        destruct (Wr V _ CV) as [_ B]. lia.
      * rewrite set_type_id_same in CV. injection CV as <-.
        rewrite set_type_id_other in CU by exact neU.
        destruct (Wr U _ CU) as [_ B]. lia.
      * rewrite set_type_id_other in CU by exact neU.
        rewrite set_type_id_other in CV by exact neV.
        exact (Wi U V j CU CV).
Qed.

(** [Get<T>] returns while the counter has a [uint16_t] left to issue. *)
Lemma Get_returns (T : CxxType) (s : IdState) :
  counter s <= uint16_max -> exists i s', Get T s = Ok (i, s').
Proof.
  intro L. unfold Get, createTypeId.
  destruct (preallocated_id T); [eexists; eexists; reflexivity | ].
  destruct (type_id s T); [eexists; eexists; reflexivity | ].
  apply Z.ltb_ge in L. rewrite L. eexists; eexists; reflexivity.
Qed.

(** The id [Get<T>] returns in a well-formed state, by the kind of [T]. *)
Lemma Get_result (T : CxxType) (s s' : IdState) (i : t) :
  ids_wf s -> Get T s = Ok (i, s') ->
  match preallocated_id T with
  | Some id => i = make id /\ underlyingId i = id /\ 0 <= id <= 27 /\ id <> 11
  | None => 27 < underlyingId i <= uint16_max /\ type_id s' T = Some i
  end.
Proof.
  intros W G. destruct (preallocated_id T) as [id | ] eqn:E.
  - rewrite (Get_preallocated T id s E) in G. injection G as <- _.
    apply preallocated_id_In, preallocated_bounds in E.
    repeat split; try lia. apply make_small. unfold uint16_max. lia.
  - pose proof (Get_caches T s s' i E G) as C.
    destruct (Get_wf T s s' i W G) as (Wc & Wr & _).
    destruct (Wr T i C) as [_ B]. split; [lia | exact C].
Qed.

End AllocatorProperties.

(** *** The registry's invariant *)

Section RegistryProperties.
Context `{Platform}.
Import detail TypeMeta.

(** The initialiser of the record calls [Get<T>] once and fills in the
    members. *)
Lemma registry_data_inv (T : CxxType) (s s' : TypeIdentifier.IdState)
  (r : TypeMetaData) :
  TypeMetaDataRegistry_data T s = Ok (r, s') ->
  TypeIdentifier.Get T s = Ok (id_ r, s') /\ table_for T r.
Proof.
  unfold TypeMetaDataRegistry_data, TypeIdentifier.bind, TypeIdentifier.ret, table_for.
  destruct (is_fundamental T || is_pointer T) eqn:F;
    destruct (TypeIdentifier.Get T s) as [[i s1] | e]; try discriminate;
    intro E; injection E as <- <-; simpl;
    repeat split; trivial; discriminate.
Qed.

(** The initialiser fails only when [Get<T>] does, with the same
    exception. *)
Lemma registry_data_raise (T : CxxType) (s : TypeIdentifier.IdState)
  (e : Exception) :
  TypeMetaDataRegistry_data T s = Raise e -> TypeIdentifier.Get T s = Raise e.
Proof.
  unfold TypeMetaDataRegistry_data, TypeIdentifier.bind, TypeIdentifier.ret.
  destruct (is_fundamental T || is_pointer T);
    destruct (TypeIdentifier.Get T s) as [[i s1] | e']; try discriminate;
    intro E; injection E as ->; reflexivity.
Qed.

Lemma id_of_Get (T U : CxxType) (s s' : TypeIdentifier.IdState)
  (i j : TypeIdentifier.t) :
  TypeIdentifier.Get T s = Ok (i, s') -> id_of s U j -> id_of s' U j.
Proof.
  unfold id_of. intros G. destruct (TypeIdentifier.preallocated_id U); trivial.
  apply (Get_keeps T U s s' i j G).
Qed.

Lemma Get_id_of (T : CxxType) (s s' : TypeIdentifier.IdState)
  (i : TypeIdentifier.t) :
  TypeIdentifier.Get T s = Ok (i, s') -> id_of s' T i.
Proof.
  unfold id_of. intro G.
  destruct (TypeIdentifier.preallocated_id T) as [id | ] eqn:E.
  - rewrite (Get_preallocated T id s E) in G. injection G as <- _. reflexivity.
  - exact (Get_caches T s s' i E G).
Qed.

Lemma Id_inv (T : CxxType) (g g' : Globals) (i : TypeIdentifier.t) :
  Id T g = Ok (i, g') ->
  TypeIdentifier.Get T (ids g) = Ok (i, ids g') /\ registry g' = registry g.
Proof.
  unfold Id. destruct (TypeIdentifier.Get T (ids g)) as [[j s] | e];
    [ | discriminate].
  intro E. injection E as <- <-. split; reflexivity.
Qed.

Lemma initialize_data_inv (T : CxxType) (g g' : Globals) :
  initialize_data T g = Ok g' ->
  (registry g T <> None /\ g' = g) \/
  (registry g T = None /\
   exists r, TypeMetaDataRegistry_data T (ids g) = Ok (r, ids g') /\
             registry g' = set_registry T r (registry g)).
Proof.
  unfold initialize_data. destruct (registry g T) as [r0 | ] eqn:R.
  - intro E. injection E as <-. left. split; [discriminate | reflexivity].
  - destruct (TypeMetaDataRegistry_data T (ids g)) as [[r s] | e] eqn:D;
      [ | discriminate].
    intro E. injection E as <-. right. split; trivial.
    exists r. split; reflexivity.
Qed.

(** The initialisation of a record returns while the counter has a
    [uint16_t] left to issue, and the record is initialised afterwards. *)
Lemma initialize_data_returns (T : CxxType) (g : Globals) :
  TypeIdentifier.counter (ids g) <= TypeIdentifier.uint16_max ->
  exists g', initialize_data T g = Ok g' /\ registry g' T <> None.
Proof.
  intro L. unfold initialize_data.
  destruct (registry g T) as [r | ] eqn:C.
  - exists g. split; [reflexivity | rewrite C; discriminate].
  - destruct (Get_returns T (ids g) L) as (i & s' & G).
    unfold TypeMetaDataRegistry_data, TypeIdentifier.bind, TypeIdentifier.ret.
    destruct (is_fundamental T || is_pointer T); rewrite G;
      eexists; (split; [reflexivity | ]); cbn [registry];
      unfold set_registry; rewrite CxxType_eqb_refl; discriminate.
Qed.

Lemma step_wf (g g' : Globals) : globals_wf g -> step g g' -> globals_wf g'.
Proof.
  intros [W R] S. destruct S as [T g g' i E | T g g' E].
  - apply Id_inv in E as [G Eq]. split.
    + exact (Get_wf T _ _ i W G).
    + intros U r C. rewrite Eq in C. destruct (R U r C) as [Tb I].
      split; [exact Tb | exact (id_of_Get T U _ _ i _ G I)].
  - apply initialize_data_inv in E as [[_ ->] | (N & r & D & Eq)].
    + split; assumption.
    + apply registry_data_inv in D as [G Tb]. split.
      * exact (Get_wf T _ _ _ W G).
      * intros U r' C. rewrite Eq in C. unfold set_registry in C.
        destruct (CxxType_eqb U T) eqn:B.
        -- apply CxxType_eqb_eq in B. subst U. injection C as <-.
           split; [exact Tb | exact (Get_id_of T _ _ _ G)].
        -- destruct (R U r' C) as [Tb' I].
           split; [exact Tb' | exact (id_of_Get T U _ _ _ _ G I)].
Qed.

Lemma start_wf : globals_wf start.
Proof. split; [exact initial_wf | discriminate]. Qed.

Lemma reachable_wf (g : Globals) : reachable g -> globals_wf g.
Proof.
  induction 1 as [ | g g' _ IH S]; [exact start_wf | exact (step_wf g g' IH S)].
Qed.

Lemma steps_reachable (g g' : Globals) : reachable g -> steps g g' -> reachable g'.
Proof.
  intros R S. induction S as [ | g g' g'' _ IH S']; trivial.
  exact (reachable_step g' g'' (IH R) S').
Qed.

(** Records are immutable: once initialised, a record is never changed. *)
Lemma step_keeps_record (g g' : Globals) (T : CxxType) (r : TypeMetaData) :
  step g g' -> registry g T = Some r -> registry g' T = Some r.
Proof.
  intros S C. destruct S as [U g g' i E | U g g' E].
  - apply Id_inv in E as [_ Eq]. rewrite Eq. exact C.
  - apply initialize_data_inv in E as [[_ ->] | (N & r' & _ & Eq)]; trivial.
    rewrite Eq. unfold set_registry. rewrite CxxType_eqb_neq; trivial.
    congruence.
Qed.

Lemma steps_keep_record (g g' : Globals) (T : CxxType) (r : TypeMetaData) :
  steps g g' -> registry g T = Some r -> registry g' T = Some r.
Proof.
  intros S C. induction S as [ | g g' g'' _ IH S']; trivial.
  exact (step_keeps_record g' g'' T r S' (IH C)).
Qed.

(** A cached id is never changed either. *)
Lemma step_keeps_id (g g' : Globals) (T : CxxType) (i : TypeIdentifier.t) :
  step g g' -> id_of (ids g) T i -> id_of (ids g') T i.
Proof.
  intros S C. destruct S as [U g g' j E | U g g' E].
  - apply Id_inv in E as [G _]. exact (id_of_Get U T _ _ j i G C).
  - apply initialize_data_inv in E as [[_ ->] | (_ & r & D & _)]; trivial.
    apply registry_data_inv in D as [G _]. exact (id_of_Get U T _ _ _ i G C).
Qed.

Lemma steps_keep_id (g g' : Globals) (T : CxxType) (i : TypeIdentifier.t) :
  steps g g' -> id_of (ids g) T i -> id_of (ids g') T i.
Proof.
  intros S C. induction S as [ | g g' g'' _ IH S']; trivial.
  exact (step_keeps_id g' g'' T i S' (IH C)).
Qed.

End RegistryProperties.

(** *** Handles *)

Lemma StaticObject_eqb_eq (p q : TypeMeta.StaticObject) :
  TypeMeta.StaticObject_eqb p q = true <-> p = q.
Proof.
  destruct p as [ | T], q as [ | U]; simpl; split; intro E;
    try reflexivity; try discriminate.
  - apply CxxType_eqb_eq in E. congruence.
  - apply CxxType_eqb_eq. congruence.
Qed.

(** C1.  Every call of [Make<T>()] returns a handle to the one record of [T],
    so two such handles are equal and [Make<T>().Match<T>()] holds; the
    handles of two distinct types are unequal; and [operator==] on handles
    is exactly the identity of the records they point to. *)
Theorem Make_identifies_the_record :
  (forall T, TypeMeta.data_ (TypeMeta.Make T) = TypeMeta.data_at T /\
             TypeMeta.eqb (TypeMeta.Make T) (TypeMeta.Make T) = true /\
             TypeMeta.Match (TypeMeta.Make T) T = true) /\
  (forall T1 T2, T1 <> T2 ->
     TypeMeta.eqb (TypeMeta.Make T1) (TypeMeta.Make T2) = false /\
     TypeMeta.neqb (TypeMeta.Make T1) (TypeMeta.Make T2) = true) /\
  (forall lhs rhs,
     TypeMeta.eqb lhs rhs = true <-> TypeMeta.data_ lhs = TypeMeta.data_ rhs) /\
  (forall m T, TypeMeta.Match m T = true <-> m = TypeMeta.Make T).
Proof.
  split; [ | split; [ | split]].
  - intro T. unfold TypeMeta.Match, TypeMeta.eqb. simpl.
    rewrite CxxType_eqb_refl. repeat split.
  - intros T1 T2 ne. unfold TypeMeta.neqb, TypeMeta.eqb. simpl.
    rewrite (CxxType_eqb_neq T1 T2 ne). split; reflexivity.
  - intros lhs rhs. unfold TypeMeta.eqb. apply StaticObject_eqb_eq.
  - intros [p] T. unfold TypeMeta.Match, TypeMeta.Make. simpl.
    rewrite (StaticObject_eqb_eq p (TypeMeta.data_at T)).
    split; intro E; [rewrite E; reflexivity | injection E as ->; reflexivity].
Qed.

(** C3.  In every state of the program a default-constructed handle has
    item size 0, null [ctor()], [copy()] and [dtor()], the id
    [TypeIdentifier::uninitialized()], which is 11, and the placeholder
    name; and it differs from [Make<T>()] for every type [T]. *)
Theorem default_handle_is_the_sentinel (g : TypeMeta.Globals) :
  TypeMeta.itemsize g TypeMeta.default = 0 /\
  TypeMeta.ctor g TypeMeta.default = None /\
  TypeMeta.copy g TypeMeta.default = None /\
  TypeMeta.dtor g TypeMeta.default = None /\
  TypeMeta.id g TypeMeta.default = TypeIdentifier.uninitialized /\
  TypeIdentifier.underlyingId (TypeMeta.id g TypeMeta.default) = 11 /\
  TypeMeta.name g TypeMeta.default = Some "nullptr (uninitialized)"%string /\
  (forall T, TypeMeta.eqb TypeMeta.default (TypeMeta.Make T) = false /\
             TypeMeta.neqb TypeMeta.default (TypeMeta.Make T) = true /\
             TypeMeta.Match TypeMeta.default T = false).
Proof.
  repeat split.
Qed.

(** *** The identifier's order *)

Lemma lt_iff (a b : TypeIdentifier.t) :
  TypeIdentifier.lt a b = true <->
  TypeIdentifier.underlyingId a < TypeIdentifier.underlyingId b.
Proof. unfold TypeIdentifier.lt. apply Z.ltb_lt. Qed.

Lemma lt_false_iff (a b : TypeIdentifier.t) :
  TypeIdentifier.lt a b = false <->
  TypeIdentifier.underlyingId b <= TypeIdentifier.underlyingId a.
Proof. unfold TypeIdentifier.lt. apply Z.ltb_ge. Qed.

Lemma incomparable_iff (a b : TypeIdentifier.t) :
  TypeIdentifier.incomparable a b <-> a = b.
Proof.
  unfold TypeIdentifier.incomparable. rewrite !lt_false_iff. split.
  - intros [L1 L2]. apply underlyingId_inj. lia.
  - intros ->. lia.
Qed.

(** C8, as the header has it.  [operator<] is declared on [TypeIdentifier]
    and not on the handle [TypeMeta], which has [==] and [!=] only.  On
    identifiers, [lhs < rhs] holds exactly when the underlying integer of
    [lhs] is less than that of [rhs], and the relation is a strict weak
    ordering: irreflexive, transitive, and with a transitive
    incomparability (which is equality of the identifiers). *)
Theorem TypeIdentifier_lt_strict_weak_order :
  declares op_lt class_TypeIdentifier = true /\
  declares op_lt class_TypeMeta = false /\
  (forall a b, TypeIdentifier.lt a b = true <->
               TypeIdentifier.underlyingId a < TypeIdentifier.underlyingId b) /\
  (forall a, TypeIdentifier.lt a a = false) /\
  (forall a b c, TypeIdentifier.lt a b = true -> TypeIdentifier.lt b c = true ->
                 TypeIdentifier.lt a c = true) /\
  (forall a b c, TypeIdentifier.incomparable a b -> TypeIdentifier.incomparable b c -> TypeIdentifier.incomparable a c) /\
  (forall a b, TypeIdentifier.incomparable a b <-> TypeIdentifier.eqb a b = true).
Proof.
  split; [reflexivity | split; [reflexivity | ]].
  split; [exact lt_iff | split; [ | split; [ | split]]].
  - intro a. apply lt_false_iff. lia.
  - intros a b c. rewrite !lt_iff. lia.
  - intros a b c. rewrite !incomparable_iff. congruence.
  - intros a b. rewrite incomparable_iff. unfold TypeIdentifier.eqb.
    rewrite Z.eqb_eq. split; [congruence | apply underlyingId_inj].
Qed.

(** C8, as stated, asks for an ordering on the handle type: the header
    declares none. *)
Lemma TypeMeta_declares_no_ordering :
  declares op_lt class_TypeMeta <> true.
Proof. discriminate. Qed.

(** *** Reserved and dynamic identifiers *)

(** A duplicate-free list of integers below [n] has at most [n] members. *)
Lemma bounded_NoDup_length (n : nat) (l : list Z) :
  NoDup l -> (forall x, In x l -> 0 <= x < Z.of_nat n) -> (List.length l <= n)%nat.
Proof.
  intros D B.
  assert (I : incl l (map Z.of_nat (seq 0 n))).
  { intros x Hx. apply in_map_iff. exists (Z.to_nat x).
    pose proof (B x Hx). split; [lia | apply in_seq; lia]. }
  pose proof (NoDup_incl_length D I) as L.
  rewrite length_map, length_seq in L. exact L.
Qed.

Section IdentifierClaims.
Context `{Platform}.
Import TypeIdentifier.

(** C2.  Whatever [Get] calls came before (in every state [s] of the
    allocator), [Get<T>()] of a type of the reserved table returns the id
    of its registration and leaves the state alone.  The ids 0 to 10 go, in
    this order, to [uint8_t], [int8_t], [int16_t], [int], [int64_t],
    [at::Half], [float], [double], [at::ComplexHalf], [std::complex<float>]
    and [std::complex<double>]; [_CaffeHighestPreallocatedTypeId] has id 27,
    and no reserved id is larger. *)
Theorem reserved_ids_are_fixed (s : IdState) :
  (forall id T, In (id, T) preallocated ->
     Get T s = Ok (make id, s) /\ underlyingId (make id) = id /\ id <= 27) /\
  map (fun T => Get T s)
    [ T_uint8_t; T_int8_t; T_int16_t; T_int; T_int64_t; T_Half; T_float;
      T_double; T_ComplexHalf; T_complex_float; T_complex_double ]
  = map (fun id => Ok (make id, s)) [0; 1; 2; 3; 4; 5; 6; 7; 8; 9; 10] /\
  map underlyingId (map make [0; 1; 2; 3; 4; 5; 6; 7; 8; 9; 10])
  = [0; 1; 2; 3; 4; 5; 6; 7; 8; 9; 10] /\
  Get T_CaffeHighestPreallocatedTypeId s = Ok (make 27, s) /\
  underlyingId (make 27) = 27.
Proof.
  split; [ | split; [ | split; [ | split]]].
  - intros id T Hin. pose proof (preallocated_bounds id T Hin) as B.
    split; [ | split].
    + apply Get_preallocated, In_preallocated_id, Hin.
    + apply make_small. unfold uint16_max. lia.
    + lia.
  - unfold Get, preallocated_id, preallocated. reflexivity.
  - reflexivity.
  - apply Get_preallocated. unfold preallocated_id, preallocated.
    destruct CAFFE2_UNIQUE_LONG_TYPEMETA; reflexivity.
  - reflexivity.
Qed.

(** C6.  No registration of the reserved table uses 11, and no call of
    [Get] in a run returns 11.  An id allocated at run time (for a type
    without a reserved id) is above 27, hence none of the reserved ids and
    not the sentinel; and two distinct such types never have the same id,
    however many steps lie between their registrations.  A registration
    returns as long as the counter has not passed the last [uint16_t]. *)
Theorem dynamic_ids_are_fresh :
  (forall id T, In (id, T) preallocated -> id <> 11) /\
  (forall g T, counter (TypeMeta.ids g) <= uint16_max ->
     exists i g', TypeMeta.Id T g = Ok (i, g')) /\
  (forall g T i g', TypeMeta.reachable g -> TypeMeta.Id T g = Ok (i, g') ->
     underlyingId i <> 11 /\ i <> uninitialized) /\
  (forall g T i g', TypeMeta.reachable g -> preallocated_id T = None ->
     TypeMeta.Id T g = Ok (i, g') ->
     27 < underlyingId i /\
     (forall id U, In (id, U) preallocated -> underlyingId i <> id /\ i <> make id)) /\
  (forall g T i g' g1 U j g2, TypeMeta.reachable g ->
     preallocated_id T = None -> preallocated_id U = None -> T <> U ->
     TypeMeta.Id T g = Ok (i, g') -> TypeMeta.steps g' g1 ->
     TypeMeta.Id U g1 = Ok (j, g2) ->
     underlyingId i <> underlyingId j).
Proof.
  split; [ | split; [ | split; [ | split]]].
  - intros id T Hin. apply (preallocated_bounds id T Hin).
  - intros g T L. unfold TypeMeta.Id.
    destruct (Get_returns T (TypeMeta.ids g) L) as (i & s' & ->).
    eexists; eexists; reflexivity.
  - intros g T i g' R E. apply Id_inv in E as [G _].
    destruct (reachable_wf g R) as [W _].
    pose proof (Get_result T _ _ i W G) as Res.
    assert (N : underlyingId i <> 11).
    { destruct (preallocated_id T); [ | lia].
      destruct Res as (_ & -> & _ & N). exact N. }
    split; [exact N | intros ->; apply N; reflexivity].
  - intros g T i g' R P E. apply Id_inv in E as [G _].
    destruct (reachable_wf g R) as [W _].
    pose proof (Get_result T _ _ i W G) as Res. rewrite P in Res.
    destruct Res as [B _]. split; [lia | ].
    intros id U Hin. pose proof (preallocated_bounds id U Hin) as Bid.
    assert (N : underlyingId i <> id) by lia.
    split; [exact N | intros ->; apply N].
    apply make_small. unfold uint16_max. lia.
  - intros g T i g' g1 U j g2 R PT PU ne ET S EU.
    assert (R' : TypeMeta.reachable g')
      by (exact (TypeMeta.reachable_step g g' R (TypeMeta.step_Get T g g' i ET))).
    assert (R2 : TypeMeta.reachable g2).
    { apply (TypeMeta.reachable_step g1 g2).
      - exact (steps_reachable g' g1 R' S).
      - exact (TypeMeta.step_Get U g1 g2 j EU). }
    apply Id_inv in ET as [GT _]. apply Id_inv in EU as [GU _].
    pose proof (Get_id_of T _ _ i GT) as IT.
    pose proof (steps_keep_id g' g1 T i S IT) as IT1.
    pose proof (id_of_Get U T _ _ j i GU IT1) as IT2.
    pose proof (Get_id_of U _ _ j GU) as IU2.
    unfold TypeMeta.id_of in IT2, IU2. rewrite PT in IT2. rewrite PU in IU2.
    destruct (reachable_wf g2 R2) as [(_ & _ & Inj) _].
    intro Eq. apply underlyingId_inj in Eq. subst j.
    exact (ne (Inj T U i IT2 IU2)).
Qed.

(** C10.  An identifier holds a [uint16_t]: whatever the constructor is
    given, the underlying id lies between 0 and 65535.  So do the sentinel
    11, the reserved ids 0 to 27, and every id a call of [Get] returns in a
    run; and a list of identifiers without a repetition has at most 65536
    members. *)
Theorem identifiers_are_uint16 :
  (forall z, 0 <= underlyingId (make z) <= 65535) /\
  (underlyingId uninitialized = 11) /\
  (forall id T, In (id, T) preallocated ->
     underlyingId (make id) = id /\ 0 <= id <= 27) /\
  (forall g T i g', TypeMeta.reachable g -> TypeMeta.Id T g = Ok (i, g') ->
     0 <= underlyingId i <= 65535) /\
  (forall l : list t, NoDup l ->
     (forall i, In i l -> 0 <= underlyingId i <= 65535) ->
     Z.of_nat (List.length l) <= 65536).
Proof.
  split; [exact make_range | split; [reflexivity | split; [ | split]]].
  - intros id T Hin. pose proof (preallocated_bounds id T Hin) as B.
    split; [apply make_small; unfold uint16_max | ]; lia.
  - intros g T i g' R E. apply Id_inv in E as [G _].
    destruct (reachable_wf g R) as [W _].
    pose proof (Get_result T _ _ i W G) as Res. unfold uint16_max in Res.
    destruct (preallocated_id T); lia.
  - intros l D B.
    assert (L : (List.length (map underlyingId l) <= Z.to_nat 65536)%nat).
    { apply bounded_NoDup_length.
      - apply NoDup_map_NoDup_ForallPairs; [ | exact D].
        intros a b _ _. apply underlyingId_inj.
      - intros x Hx. apply in_map_iff in Hx as (i & <- & Hi).
        pose proof (B i Hi). lia. }
    rewrite length_map in L. lia.
Qed.

End IdentifierClaims.

(** *** The functions of a table *)

Section OperationClaims.
Context `{Platform}.
Import detail TypeMeta.

(** A loop that stores the same cell at [ptr + i] for [i] from [start] on. *)
Lemma fold_store_const (c : Cell) (ptr : Z) (k start : nat) (m : Memory) (q : Z) :
  fold_left (fun acc i => store (ptr + Z.of_nat i) c acc) (seq start k) m q
  = if (ptr + Z.of_nat start <=? q) && (q <? ptr + Z.of_nat start + Z.of_nat k)
    then c else m q.
Proof.
  revert start m. induction k as [ | k IH]; intros start m.
  - cbn [seq fold_left].
    destruct (Z.leb_spec (ptr + Z.of_nat start) q);
      destruct (Z.ltb_spec q (ptr + Z.of_nat start + Z.of_nat 0));
      cbn [andb]; trivial; lia.
  - cbn [seq fold_left]. rewrite IH. unfold store.
    rewrite !Nat2Z.inj_succ.
    destruct (Z.leb_spec (ptr + Z.succ (Z.of_nat start)) q);
      destruct (Z.ltb_spec q (ptr + Z.succ (Z.of_nat start) + Z.of_nat k));
      destruct (Z.leb_spec (ptr + Z.of_nat start) q);
      destruct (Z.ltb_spec q (ptr + Z.of_nat start + Z.succ (Z.of_nat k)));
      destruct (Z.eqb_spec q (ptr + Z.of_nat start));
      cbn [andb]; trivial; lia.
Qed.

Lemma for_loop_store_const (c : Cell) (ptr : Z) (n : N) (m : Memory) (q : Z) :
  for_loop n (fun i acc => store (ptr + i) c acc) m q
  = if (ptr <=? q) && (q <? ptr + Z.of_N n) then c else m q.
Proof.
  unfold for_loop. rewrite fold_store_const.
  rewrite N_nat_Z. change (Z.of_nat 0) with 0. rewrite Z.add_0_r. reflexivity.
Qed.

(** What [_Ctor<T>] does to storage when [T] is default-constructible. *)
Lemma Ctor_spec (T : CxxType) (ptr : Z) (n : N) (m : Memory) :
  is_default_constructible T = true ->
  exists m', _Ctor T ptr n m = Ok m' /\
    forall q, m' q = if (ptr <=? q) && (q <? ptr + Z.of_N n)
                     then default_initialized T else m q.
Proof.
  intro D. unfold _Ctor. eexists. split; [reflexivity | ].
  intro q. unfold is_default_constructible in D.
  unfold placement_new, default_initialized.
  destruct (default_ctor T) as [ | | v]; [discriminate | | ];
    apply for_loop_store_const.
Qed.

(** What [_Dtor<T>] does to storage. *)
Lemma Dtor_spec (T : CxxType) (ptr : Z) (n : N) (m : Memory) :
  exists m', _Dtor T ptr n m = Ok m' /\
    forall q, m' q = if (ptr <=? q) && (q <? ptr + Z.of_N n) then raw else m q.
Proof.
  unfold _Dtor. eexists. split; [reflexivity | ].
  intro q. apply for_loop_store_const.
Qed.

(** In a run, a non-null function pointer read through [Make<T>()] is the
    one the general specialisation picked for [T]. *)
Lemma handle_general_path (g : Globals) (T : CxxType) :
  reachable g ->
  ctor g (Make T) <> None \/ copy g (Make T) <> None \/ dtor g (Make T) <> None ->
  is_fundamental T || is_pointer T = false /\
  ctor g (Make T) = Some (_PickCtor T) /\
  copy g (Make T) = Some (_PickCopy T) /\
  dtor g (Make T) = Some (Dtor_at T).
Proof.
  intros R N. destruct (reachable_wf g R) as [_ W].
  unfold ctor, copy, dtor, deref in *. cbn [data_ Make] in *.
  destruct (registry g T) as [r | ] eqn:C.
  - destruct (W T r C) as [(_ & _ & Tr & Ge) _].
    destruct (is_fundamental T || is_pointer T).
    + destruct (Tr eq_refl) as (E1 & E2 & E3). rewrite E1, E2, E3 in N.
      destruct N as [N | [N | N]]; contradiction.
    + split; [reflexivity | exact (Ge eq_refl)].
  - cbn in N. destruct N as [N | [N | N]]; contradiction.
Qed.

Lemma Get_raise (T : CxxType) (s : TypeIdentifier.IdState) (e : Exception) :
  TypeIdentifier.Get T s = Raise e -> e = TypeIdsExhausted.
Proof.
  unfold TypeIdentifier.Get, TypeIdentifier.createTypeId.
  destruct (TypeIdentifier.preallocated_id T); [discriminate | ].
  destruct (TypeIdentifier.type_id s T); [discriminate | ].
  destruct (TypeIdentifier.uint16_max <? TypeIdentifier.counter s);
    [ | discriminate].
  intro E. injection E as <-. reflexivity.
Qed.

End OperationClaims.

Lemma after_initialize_reachable (P : Platform) (T : CxxType) :
  @TypeMeta.reachable P (after_initialize P T).
Proof.
  unfold after_initialize.
  destruct (@TypeMeta.initialize_data P T TypeMeta.start) as [g | e] eqn:E.
  - apply (TypeMeta.reachable_step TypeMeta.start g).
    + apply TypeMeta.reachable_start.
    + exact (TypeMeta.step_initialize T TypeMeta.start g E).
  - apply TypeMeta.reachable_start.
Qed.

Section TableClaims.
Context `{Platform}.
Import detail TypeMeta.

(** C7.  In a run, the record of any type can be initialised while the
    counter has a [uint16_t] left to issue.  Once the record of [T] is
    initialised, the handle [Make<T>()] reads [sizeof(T)] as item size; for
    a fundamental or pointer type it reads null [ctor()], [copy()] and
    [dtor()], and for every other type the three functions the general
    specialisation picks, none of them null. *)
Theorem record_matches_its_type (g : Globals) (T : CxxType) :
  reachable g ->
  (TypeIdentifier.counter (ids g) <= TypeIdentifier.uint16_max ->
   exists g', initialize_data T g = Ok g' /\ reachable g' /\
              registry g' T <> None) /\
  (registry g T <> None ->
   itemsize g (Make T) = sizeof T /\
   itemsize g (Make T) = ItemSize T /\
   (is_fundamental T || is_pointer T = true ->
      ctor g (Make T) = None /\ copy g (Make T) = None /\
      dtor g (Make T) = None) /\
   (is_fundamental T || is_pointer T = false ->
      ctor g (Make T) = Some (_PickCtor T) /\
      copy g (Make T) = Some (_PickCopy T) /\
      dtor g (Make T) = Some (Dtor_at T) /\
      ctor g (Make T) <> None /\ copy g (Make T) <> None /\
      dtor g (Make T) <> None)).
Proof.
  intro R. split.
  - intro L. destruct (initialize_data_returns T g L) as (g' & E & N).
    exists g'. split; [exact E | split; [ | exact N]].
    exact (reachable_step g g' R (step_initialize T g g' E)).
  - intro N. destruct (reachable_wf g R) as [_ W].
    unfold itemsize, ctor, copy, dtor, ItemSize, deref. cbn [data_ Make].
    destruct (registry g T) as [r | ] eqn:C; [ | contradiction].
    destruct (W T r C) as [(Sz & _ & Tr & Ge) _].
    split; [exact Sz | split; [exact Sz | split]].
    + exact Tr.
    + intro F. destruct (Ge F) as (E1 & E2 & E3).
      rewrite E1, E2, E3. repeat split; discriminate.
Qed.

(** C4, as the header has it.  Building a table raises no illegal-operation
    failure (the initialiser can only fail where [Get<T>] runs out of ids).  A call
    through the [ctor()] of a handle raises exactly when the type is not
    default-constructible, a call through [copy()] exactly when it is not
    copy-assignable, and the exception is the logic error whose message
    holds the demangled name of the type, [at::demangle_type<T>()], which
    is not the name the record stores, and the unsupported operation.  A call through a destructor pointer always returns.  The
    accessors of [TypeMeta] are total functions that return plain values. *)
Theorem illegal_operation_only_when_invoked :
  (forall T s e, TypeMetaDataRegistry_data T s = Raise e -> e = TypeIdsExhausted) /\
  (forall T g e, initialize_data T g = Raise e -> e = TypeIdsExhausted) /\
  (forall g T f ptr n m e, reachable g -> ctor g (Make T) = Some f ->
     (call_ctor f ptr n m = Raise e <->
      is_default_constructible T = false /\
      e = RuntimeTypeLogicError
            ("Type " ++ demangle_type T ++ " is not default-constructible."))) /\
  (forall g T f src dst n m e, reachable g -> copy g (Make T) = Some f ->
     (call_copy f src dst n m = Raise e <->
      is_copy_assignable T = false /\
      e = RuntimeTypeLogicError
            ("Type " ++ demangle_type T ++ " does not allow assignment."))) /\
  (forall f ptr n m, exists m', call_dtor f ptr n m = Ok m').
Proof.
  split; [ | split; [ | split; [ | split]]].
  - intros T s e E. apply registry_data_raise in E. exact (Get_raise T s e E).
  - intros T g e. unfold initialize_data.
    destruct (registry g T); [discriminate | ].
    destruct (TypeMetaDataRegistry_data T (ids g)) as [[r s] | e'] eqn:D;
      [discriminate | ].
    intro E. injection E as <-. apply registry_data_raise in D.
    exact (Get_raise T _ e' D).
  - intros g T f ptr n m e R C.
    destruct (handle_general_path g T R) as (_ & Ec & _).
    { left. rewrite C. discriminate. }
    rewrite Ec in C. injection C as <-. unfold _PickCtor.
    destruct (is_default_constructible T); cbn [call_ctor].
    + unfold _Ctor. split; [discriminate | intros [E _]; discriminate].
    + unfold _CtorNotDefault, _ThrowRuntimeTypeLogicError. split.
      * intro E. injection E as <-. split; reflexivity.
      * intros [_ ->]. reflexivity.
  - intros g T f src dst n m e R C.
    destruct (handle_general_path g T R) as (_ & _ & Ec & _).
    { right. left. rewrite C. discriminate. }
    rewrite Ec in C. injection C as <-. unfold _PickCopy.
    destruct (is_copy_assignable T); cbn [call_copy].
    + unfold _Copy. split; [discriminate | intros [E _]; discriminate].
    + unfold _CopyNotAllowed, _ThrowRuntimeTypeLogicError. split.
      * intro E. injection E as <-. split; reflexivity.
      * intros [_ ->]. reflexivity.
  - intros [T] ptr n m. cbn [call_dtor].
    destruct (Dtor_spec T ptr n m) as (m' & E & _). exists m'. exact E.
Qed.

(** C5, as the header has it.  For a default-constructible type whose
    handle has a non-null [ctor()], a call with a storage pointer and a
    count [n] returns, and leaves a default-initialised element of [T] at
    each of the [n] places from [ptr] on and every other place as it was;
    with [n = 0] nothing changes.  The element equals the
    value-initialised one when the default constructor of [T] is
    user-provided. *)
Theorem ctor_default_initializes (g : Globals) (T : CxxType) (f : PlacementNew) :
  reachable g -> is_default_constructible T = true ->
  ctor g (Make T) = Some f ->
  (forall v, default_ctor T = ctor_user_provided v ->
     default_initialized T = value_initialized T) /\
  (forall ptr n m, exists m',
     call_ctor f ptr n m = Ok m' /\
     (forall q, ptr <= q < ptr + Z.of_N n -> m' q = default_initialized T) /\
     (forall q, ~ ptr <= q < ptr + Z.of_N n -> m' q = m q) /\
     (n = 0%N -> forall q, m' q = m q)).
Proof.
  intros R D C. split.
  - intros v E. unfold default_initialized, value_initialized. rewrite E.
    reflexivity.
  - intros ptr n m.
    destruct (handle_general_path g T R) as (_ & Ec & _).
    { left. rewrite C. discriminate. }
    rewrite Ec in C. injection C as <-. unfold _PickCtor. rewrite D.
    cbn [call_ctor].
    destruct (Ctor_spec T ptr n m D) as (m' & E & S).
    exists m'. split; [exact E | ].
    assert (In_range : forall q, ptr <= q < ptr + Z.of_N n ->
              (ptr <=? q) && (q <? ptr + Z.of_N n) = true).
    { intros q B. apply andb_true_iff. split; [apply Z.leb_le | apply Z.ltb_lt]; lia. }
    assert (Out_of_range : forall q, ~ ptr <= q < ptr + Z.of_N n ->
              (ptr <=? q) && (q <? ptr + Z.of_N n) = false).
    { intros q B. apply andb_false_iff.
      destruct (Z.leb_spec ptr q); [right; apply Z.ltb_ge; lia | left; reflexivity]. }
    split; [ | split].
    + intros q B. rewrite S, (In_range q B). reflexivity.
    + intros q B. rewrite S, (Out_of_range q B). reflexivity.
    + intros -> q. rewrite S, Out_of_range; [reflexivity | cbn; lia].
Qed.

End TableClaims.

(** ** The example platform at work *)

Section Examples.
#[local] Existing Instance lp64.
Import detail TypeMeta.

(** The first two types registered at run time get the ids 28 and 29, and
    a second call for the first type reads its cached id. *)
Example first_dynamic_ids :
  match Id Counter start with
  | Ok (i, g1) =>
      match Id Pod g1 with
      | Ok (j, g2) =>
          match Id Counter g2 with
          | Ok (k, _) =>
              map TypeIdentifier.underlyingId [i; j; k] = [28; 29; 28]
          | Raise _ => False
          end
      | Raise _ => False
      end
  | Raise _ => False
  end.
Proof. reflexivity. Qed.

(** With the counter past the last [uint16_t], a registration fails. *)
Example ids_exhausted :
  TypeIdentifier.Get Counter
    {| TypeIdentifier.counter := 65536; TypeIdentifier.type_id := fun _ => None |}
  = Raise TypeIdsExhausted.
Proof. reflexivity. Qed.

(** The record of [Counter], a class type, and the one of [int]. *)
Example Counter_record :
  registry (after_initialize lp64 Counter) Counter
  = Some {| itemsize_ := 4; ctor_ := Some (Ctor_at Counter);
            copy_ := Some (Copy_at Counter); dtor_ := Some (Dtor_at Counter);
            id_ := TypeIdentifier.make 28; name_ := Some "Counter"%string |}.
Proof. reflexivity. Qed.

Example int_record :
  registry (after_initialize lp64 T_int) T_int
  = Some {| itemsize_ := 4; ctor_ := None; copy_ := None; dtor_ := None;
            id_ := TypeIdentifier.make 3; name_ := Some "int"%string |}.
Proof. reflexivity. Qed.

(** Before its initialiser has run, a record of static storage duration
    reads as zeros. *)
Example record_before_initialization :
  itemsize start (Make Counter) = 0 /\ ctor start (Make Counter) = None /\
  name start (Make Counter) = None.
Proof. repeat split. Qed.

(** The stand-ins raise when they are called, and name the type. *)
Example NoDefault_ctor_raises :
  ctor (after_initialize lp64 NoDefault) (Make NoDefault)
    = Some (CtorNotDefault_at NoDefault) /\
  call_ctor (CtorNotDefault_at NoDefault) 0 3 (fun _ => raw)
    = Raise (RuntimeTypeLogicError
               "Type NoDefault is not default-constructible.").
Proof. split; reflexivity. Qed.

Example NoAssignment_copy_raises :
  copy (after_initialize lp64 NoAssignment) (Make NoAssignment)
    = Some (CopyNotAllowed_at NoAssignment) /\
  call_copy (CopyNotAllowed_at NoAssignment) 0 8 1 (fun _ => raw)
    = Raise (RuntimeTypeLogicError
               "Type NoAssignment does not allow assignment.").
Proof. split; reflexivity. Qed.

Example unique_ptr_copy_raises :
  copy (after_initialize lp64 T_unique_ptr_mutex) (Make T_unique_ptr_mutex)
    = Some (CopyNotAllowed_at T_unique_ptr_mutex) /\
  name (after_initialize lp64 T_unique_ptr_mutex) (Make T_unique_ptr_mutex)
    = Some "std::unique_ptr<std::mutex>"%string /\
  call_copy (CopyNotAllowed_at T_unique_ptr_mutex) 0 1 1 (fun _ => raw)
    = Raise (RuntimeTypeLogicError
               ("Type std::unique_ptr<std::mutex, std::default_delete<std::mutex> >"
                ++ " does not allow assignment.")).
Proof. repeat split. Qed.

(** C4, as stated, asks for the display name of the type in the message.
    [std::unique_ptr<std::mutex>] is not copy-assignable; the [name()] of
    its handle is the registered spelling, and the message of the failure
    its [copy()] raises holds the demangled name, in which that spelling
    does not occur. *)
Lemma message_lacks_the_display_name :
  copy (after_initialize lp64 T_unique_ptr_mutex) (Make T_unique_ptr_mutex)
    = Some (CopyNotAllowed_at T_unique_ptr_mutex) /\
  name (after_initialize lp64 T_unique_ptr_mutex) (Make T_unique_ptr_mutex)
    = Some "std::unique_ptr<std::mutex>"%string /\
  exists msg,
    call_copy (CopyNotAllowed_at T_unique_ptr_mutex) 0 1 1 (fun _ => raw)
      = Raise (RuntimeTypeLogicError msg) /\
    occurs_in "std::unique_ptr<std::mutex>" msg = false /\
    occurs_in (demangle_type T_unique_ptr_mutex) msg = true.
Proof.
  split; [reflexivity | split; [reflexivity | ]].
  eexists. split; [reflexivity | split; reflexivity].
Qed.

(** [_Ctor<Counter>] on three elements, and [_Copy<Counter>] of two. *)
Example Counter_ctor_three :
  match call_ctor (Ctor_at Counter) 10 3 (fun _ => raw) with
  | Ok m => map m [9; 10; 11; 12; 13]
            = [raw; object 42; object 42; object 42; raw]
  | Raise _ => False
  end.
Proof. reflexivity. Qed.

Example Counter_copy_two :
  match call_copy (Copy_at Counter) 0 5 2
          (store 0 (object 10) (store 1 (object 11) (fun _ => object 42))) with
  | Ok m => map m [4; 5; 6; 7] = [object 42; object 10; object 11; object 42]
  | Raise _ => False
  end.
Proof. reflexivity. Qed.

(** C7 at [int], on the path for fundamental types, and at the class
    [Counter], on the general path: each record is built from the start
    state and read through its handle. *)
Lemma record_matches_its_type_witness :
  (itemsize (after_initialize lp64 T_int) (Make T_int) = sizeof T_int /\
   ctor (after_initialize lp64 T_int) (Make T_int) = None /\
   copy (after_initialize lp64 T_int) (Make T_int) = None /\
   dtor (after_initialize lp64 T_int) (Make T_int) = None) /\
  (itemsize (after_initialize lp64 Counter) (Make Counter) = sizeof Counter /\
   ctor (after_initialize lp64 Counter) (Make Counter) = Some (_PickCtor Counter) /\
   copy (after_initialize lp64 Counter) (Make Counter) = Some (_PickCopy Counter) /\
   dtor (after_initialize lp64 Counter) (Make Counter) = Some (Dtor_at Counter) /\
   ctor (after_initialize lp64 Counter) (Make Counter) <> None /\
   copy (after_initialize lp64 Counter) (Make Counter) <> None /\
   dtor (after_initialize lp64 Counter) (Make Counter) <> None) /\
  (exists g', initialize_data Counter start = Ok g' /\ reachable g' /\
              registry g' Counter <> None).
Proof.
  split; [ | split].
  - destruct (@record_matches_its_type lp64 (after_initialize lp64 T_int) T_int
                (after_initialize_reachable lp64 T_int)) as [_ Shape].
    destruct Shape as (Sz & _ & Trivial & _); [simpl; discriminate | ].
    split; [exact Sz | exact (Trivial eq_refl)].
  - destruct (@record_matches_its_type lp64 (after_initialize lp64 Counter)
                Counter (after_initialize_reachable lp64 Counter))
      as [_ Shape].
    destruct Shape as (Sz & _ & _ & General); [simpl; discriminate | ].
    split; [exact Sz | exact (General eq_refl)].
  - destruct (@record_matches_its_type lp64 start Counter reachable_start)
      as [Built _].
    apply Built. simpl. unfold TypeIdentifier.uint16_max. lia.
Defined.

(** C5 at [Counter], whose constructor sets [x = 42]. *)
Lemma ctor_default_initializes_witness :
  (forall v, default_ctor Counter = ctor_user_provided v ->
     default_initialized Counter = value_initialized Counter) /\
  (forall ptr n m, exists m',
     call_ctor (Ctor_at Counter) ptr n m = Ok m' /\
     (forall q, ptr <= q < ptr + Z.of_N n -> m' q = default_initialized Counter) /\
     (forall q, ~ ptr <= q < ptr + Z.of_N n -> m' q = m q) /\
     (n = 0%N -> forall q, m' q = m q)).
Proof.
  apply (@ctor_default_initializes lp64 (after_initialize lp64 Counter) Counter
           (Ctor_at Counter)).
  - apply after_initialize_reachable.
  - reflexivity.
  - reflexivity.
Defined.

(** C5, as stated, asks for value-initialised elements.  [Pod] is
    default-constructible, neither fundamental nor a pointer, and its handle
    has the construct function [_Ctor<Pod>]; the element that function
    leaves is indeterminate, while a value-initialised [Pod] is zero. *)
Lemma ctor_leaves_Pod_indeterminate :
  is_default_constructible Pod = true /\
  is_fundamental Pod || is_pointer Pod = false /\
  ctor (after_initialize lp64 Pod) (Make Pod) = Some (Ctor_at Pod) /\
  value_initialized Pod = object 0 /\
  exists m', call_ctor (Ctor_at Pod) 0 1 (fun _ => raw) = Ok m' /\
             m' 0 = indeterminate /\ m' 0 <> value_initialized Pod.
Proof.
  repeat split.
  eexists. split; [reflexivity | ]. split; [reflexivity | discriminate].
Qed.

End Examples.

(** ** Further properties of the typed functions *)

Section StorageProperties.
Context `{Platform}.
Import detail.

(** One more iteration of the loop runs the body on the index [n]. *)
Lemma for_loop_succ {S : Type} (n : N) (body : Z -> S -> S) (s : S) :
  for_loop (N.succ n) body s = body (Z.of_N n) (for_loop n body s).
Proof.
  unfold for_loop. rewrite N2Nat.inj_succ, seq_S, fold_left_app.
  cbn [fold_left]. rewrite Nat.add_0_l, N_nat_Z. reflexivity.
Qed.

(** The copy loop when no element is read after it was written: the
    destination does not start after the source, or the ranges are apart. *)
Lemma Copy_loop_safe (src dst : Z) (m : Memory) (n : N) :
  dst <= src \/ src + Z.of_N n <= dst ->
  forall q,
    for_loop n (fun i acc => store (dst + i) (acc (src + i)) acc) m q
    = if (dst <=? q) && (q <? dst + Z.of_N n) then m (q - dst + src) else m q.
Proof.
  induction n as [ | n IH] using N.peano_ind; intros Hd q.
  - cbn [for_loop N.to_nat seq fold_left].
    destruct (Z.leb_spec dst q); destruct (Z.ltb_spec q (dst + Z.of_N 0));
      cbn [andb]; trivial; lia.
  - rewrite for_loop_succ. unfold store at 1. rewrite N2Z.inj_succ.
    assert (Hd' : dst <= src \/ src + Z.of_N n <= dst) by lia.
    rewrite !(IH Hd').
    destruct (Z.eqb_spec q (dst + Z.of_N n)) as [-> | ne].
    + destruct (Z.leb_spec dst (src + Z.of_N n));
        destruct (Z.ltb_spec (src + Z.of_N n) (dst + Z.of_N n));
        destruct (Z.leb_spec dst (dst + Z.of_N n));
        destruct (Z.ltb_spec (dst + Z.of_N n) (dst + Z.succ (Z.of_N n)));
        cbn [andb]; try lia; f_equal; lia.
    + destruct (Z.leb_spec dst q);
        destruct (Z.ltb_spec q (dst + Z.of_N n));
        destruct (Z.ltb_spec q (dst + Z.succ (Z.of_N n)));
        cbn [andb]; trivial; lia.
Qed.

(** The copy loop when the destination starts [dst - src] elements after the
    source: an element read from the part already written is itself a copy. *)
Lemma Copy_loop_overlap (src dst : Z) (m : Memory) (n : N) :
  src < dst ->
  forall q,
    for_loop n (fun i acc => store (dst + i) (acc (src + i)) acc) m q
    = if (dst <=? q) && (q <? dst + Z.of_N n)
      then m (src + (q - dst) mod (dst - src)) else m q.
Proof.
  intro Hd. induction n as [ | n IH] using N.peano_ind; intro q.
  - cbn [for_loop N.to_nat seq fold_left].
    destruct (Z.leb_spec dst q); destruct (Z.ltb_spec q (dst + Z.of_N 0));
      cbn [andb]; trivial; lia.
  - rewrite for_loop_succ. unfold store at 1. rewrite N2Z.inj_succ.
    rewrite !IH.
    destruct (Z.eqb_spec q (dst + Z.of_N n)) as [-> | ne].
    + replace (dst + Z.of_N n - dst) with (Z.of_N n) by lia.
      destruct (Z.leb_spec dst (dst + Z.of_N n)); [ | lia].
      destruct (Z.ltb_spec (dst + Z.of_N n) (dst + Z.succ (Z.of_N n))); [ | lia].
      cbn [andb].
      destruct (Z.leb_spec dst (src + Z.of_N n));
        destruct (Z.ltb_spec (src + Z.of_N n) (dst + Z.of_N n));
        cbn [andb]; try lia.
      * f_equal. f_equal.
        replace (src + Z.of_N n - dst) with (Z.of_N n + (-1) * (dst - src)) by lia.
        apply Z_mod_plus_full.
      * f_equal. rewrite Z.mod_small; lia.
    + destruct (Z.leb_spec dst q);
        destruct (Z.ltb_spec q (dst + Z.of_N n));
        destruct (Z.ltb_spec q (dst + Z.succ (Z.of_N n)));
        cbn [andb]; trivial; lia.
Qed.

Lemma in_range_true (a q : Z) (n : N) :
  a <= q < a + Z.of_N n -> (a <=? q) && (q <? a + Z.of_N n) = true.
Proof.
  intro B. apply andb_true_iff. split; [apply Z.leb_le | apply Z.ltb_lt]; lia.
Qed.

Lemma in_range_false (a q : Z) (n : N) :
  ~ a <= q < a + Z.of_N n -> (a <=? q) && (q <? a + Z.of_N n) = false.
Proof.
  intro B. apply andb_false_iff.
  destruct (Z.leb_spec a q); [right; apply Z.ltb_ge; lia | left; reflexivity].
Qed.

(** X1.  When the destination does not start after the source, or the two
    ranges are apart, [_Copy<T>] returns with element [i] of the destination
    equal to what element [i] of the source was, for every [i < n], and
    with all storage outside the destination as it was. *)
Theorem Copy_assigns_in_index_order (T : CxxType) (src dst : Z) (n : N) (m : Memory) :
  dst <= src \/ src + Z.of_N n <= dst ->
  exists m', _Copy T src dst n m = Ok m' /\
    (forall i, 0 <= i < Z.of_N n -> m' (dst + i) = m (src + i)) /\
    (forall q, ~ dst <= q < dst + Z.of_N n -> m' q = m q).
Proof.
  intro Hd. unfold _Copy. eexists. split; [reflexivity | ]. split.
  - intros i Hi. rewrite (Copy_loop_safe src dst m n Hd).
    rewrite in_range_true by lia. f_equal. lia.
  - intros q Hq. rewrite (Copy_loop_safe src dst m n Hd).
    rewrite in_range_false by exact Hq. reflexivity.
Qed.

(** X2.  When the destination starts [d = dst - src > 0] elements after the
    source, [_Copy<T>] reads elements it has already written: element [i]
    of the destination ends up as what element [i mod d] of the source was,
    so the first [d] source elements are repeated over the destination. *)
Theorem Copy_forward_overlap_repeats (T : CxxType) (src dst : Z) (n : N) (m : Memory) :
  src < dst ->
  exists m', _Copy T src dst n m = Ok m' /\
    (forall i, 0 <= i < Z.of_N n -> m' (dst + i) = m (src + i mod (dst - src))) /\
    (forall q, ~ dst <= q < dst + Z.of_N n -> m' q = m q).
Proof.
  intro Hd. unfold _Copy. eexists. split; [reflexivity | ]. split.
  - intros i Hi. rewrite (Copy_loop_overlap src dst m n Hd).
    rewrite in_range_true by lia. do 3 f_equal. lia.
  - intros q Hq. rewrite (Copy_loop_overlap src dst m n Hd).
    rewrite in_range_false by exact Hq. reflexivity.
Qed.

(** X3.  [_Dtor<T>] returns for every count, ends the lifetime of exactly
    the [n] elements from [ptr] on, and touches nothing else; with [n = 0]
    storage is unchanged. *)
Theorem Dtor_destroys_the_range (T : CxxType) (ptr : Z) (n : N) (m : Memory) :
  exists m', _Dtor T ptr n m = Ok m' /\
    (forall q, ptr <= q < ptr + Z.of_N n -> m' q = raw) /\
    (forall q, ~ ptr <= q < ptr + Z.of_N n -> m' q = m q) /\
    (n = 0%N -> forall q, m' q = m q).
Proof.
  destruct (Dtor_spec T ptr n m) as (m' & E & S).
  exists m'. split; [exact E | ]. split; [ | split].
  - intros q B. rewrite S, in_range_true by exact B. reflexivity.
  - intros q B. rewrite S, in_range_false by exact B. reflexivity.
  - intros -> q. rewrite S, in_range_false; [reflexivity | cbn; lia].
Qed.

End StorageProperties.

(** ** Further properties of identifiers and handles *)

(** The program state after one more call of [Get<T>()], and after one more
    record has been initialised. *)
Definition then_Get (P : Platform) (T : CxxType) (g : TypeMeta.Globals)
  : TypeMeta.Globals :=
  match @TypeMeta.Id P T g with
  | Ok (_, g') => g'
  | Raise _ => g
  end.

Definition then_initialize (P : Platform) (T : CxxType) (g : TypeMeta.Globals)
  : TypeMeta.Globals :=
  match @TypeMeta.initialize_data P T g with
  | Ok g' => g'
  | Raise _ => g
  end.

Section HandleProperties.
Context `{Platform}.
Import detail TypeMeta.

Lemma then_Get_steps (T : CxxType) (g : Globals) : steps g (then_Get _ T g).
Proof.
  unfold then_Get. destruct (Id T g) as [[i g'] | e] eqn:E.
  - exact (steps_next g g g' (steps_refl g) (step_Get T g g' i E)).
  - apply steps_refl.
Qed.

Lemma then_initialize_steps (T : CxxType) (g : Globals) :
  steps g (then_initialize _ T g).
Proof.
  unfold then_initialize. destruct (initialize_data T g) as [g' | e] eqn:E.
  - exact (steps_next g g g' (steps_refl g) (step_initialize T g g' E)).
  - apply steps_refl.
Qed.

(** A call of [Get<T>] whose id is reserved or cached returns it and leaves
    the state alone. *)
Lemma id_of_Get_returns (T : CxxType) (s : TypeIdentifier.IdState)
  (i : TypeIdentifier.t) :
  id_of s T i -> TypeIdentifier.Get T s = Ok (i, s).
Proof.
  unfold id_of, TypeIdentifier.Get.
  destruct (TypeIdentifier.preallocated_id T) as [id | ].
  - intros ->. reflexivity.
  - intros ->. reflexivity.
Qed.

Lemma id_of_Id_returns (T : CxxType) (g : Globals) (i : TypeIdentifier.t) :
  id_of (ids g) T i -> Id T g = Ok (i, g).
Proof.
  intro I. unfold Id. rewrite (id_of_Get_returns T (ids g) i I).
  destruct g. reflexivity.
Qed.

(** The reserved table lists no id twice. *)
Lemma preallocated_id_inj (T U : CxxType) (id : Z) :
  TypeIdentifier.preallocated_id T = Some id ->
  TypeIdentifier.preallocated_id U = Some id -> T = U.
Proof.
  intros PT PU. apply preallocated_id_In in PT, PU.
  unfold TypeIdentifier.preallocated in *.
  destruct CAFFE2_UNIQUE_LONG_TYPEMETA; simpl in PT, PU;
    repeat (destruct PT as [PT | PT];
            [repeat (destruct PU as [PU | PU]; [congruence | ]);
             contradiction | ]);
    contradiction.
Qed.

(** In a well-formed allocator state no id belongs to two types, reserved
    or not. *)
Lemma id_of_inj (s : TypeIdentifier.IdState) (T U : CxxType)
  (i : TypeIdentifier.t) :
  TypeIdentifier.ids_wf s -> id_of s T i -> id_of s U i -> T = U.
Proof.
  intros (_ & Wr & Wi). unfold id_of.
  destruct (TypeIdentifier.preallocated_id T) as [a | ] eqn:PT;
    destruct (TypeIdentifier.preallocated_id U) as [b | ] eqn:PU.
  - intros -> E.
    pose proof (preallocated_bounds a T (preallocated_id_In a T PT)) as Ba.
    pose proof (preallocated_bounds b U (preallocated_id_In b U PU)) as Bb.
    assert (Eab : a = b).
    { rewrite <- (make_small a), <- (make_small b), E;
        unfold TypeIdentifier.uint16_max; trivial; lia. }
    subst b. exact (preallocated_id_inj T U a PT PU).
  - intros -> C. destruct (Wr U _ C) as [_ B].
    pose proof (preallocated_bounds a T (preallocated_id_In a T PT)) as Ba.
    rewrite make_small in B; unfold TypeIdentifier.uint16_max; lia.
  - intros C ->. destruct (Wr T _ C) as [_ B].
    pose proof (preallocated_bounds b U (preallocated_id_In b U PU)) as Bb.
    rewrite make_small in B; unfold TypeIdentifier.uint16_max; lia.
  - intros CT CU. exact (Wi T U i CT CU).
Qed.

(** In a run, the id member of an initialised record is the id of its
    type. *)
Lemma record_id_of (g : Globals) (T : CxxType) :
  reachable g -> registry g T <> None -> id_of (ids g) T (id g (Make T)).
Proof.
  intros R N. destruct (reachable_wf g R) as [_ W].
  unfold id, deref. cbn [data_ Make].
  destruct (registry g T) as [r | ] eqn:C; [ | contradiction].
  apply (W T r C).
Qed.

(** X5.  Once [Get<T>()] has returned an id, every later call, after any
    number of other registrations and initialisations, returns the same id
    and changes nothing. *)
Theorem Get_keeps_returning_the_id (g g1 g2 : Globals) (T : CxxType)
  (i : TypeIdentifier.t) :
  Id T g = Ok (i, g1) -> steps g1 g2 -> Id T g2 = Ok (i, g2).
Proof.
  intros E S. apply Id_inv in E as [G _].
  apply id_of_Id_returns.
  exact (steps_keep_id g1 g2 T i S (Get_id_of T _ _ i G)).
Qed.

(** X6.  In a run, two different types never get the same id from
    [Get], whether their ids are reserved or allocated, and however many
    steps lie between the two calls. *)
Theorem different_types_have_different_ids (g g1 g2 g3 : Globals)
  (T U : CxxType) (i j : TypeIdentifier.t) :
  reachable g -> T <> U ->
  Id T g = Ok (i, g1) -> steps g1 g2 -> Id U g2 = Ok (j, g3) ->
  i <> j.
Proof.
  intros R ne ET S EU.
  assert (R3 : reachable g3).
  { apply (reachable_step g2 g3); [ | exact (step_Get U g2 g3 j EU)].
    apply (steps_reachable g1 g2); [ | exact S].
    exact (reachable_step g g1 R (step_Get T g g1 i ET)). }
  apply Id_inv in ET as [GT _]. apply Id_inv in EU as [GU _].
  pose proof (steps_keep_id g1 g2 T i S (Get_id_of T _ _ i GT)) as IT2.
  pose proof (id_of_Get U T _ _ j i GU IT2) as IT3.
  pose proof (Get_id_of U _ _ j GU) as IU3.
  destruct (reachable_wf g3 R3) as [W _].
  intros ->. exact (ne (id_of_inj (ids g3) T U j W IT3 IU3)).
Qed.

(** X7.  In a run, once the record of [T] is initialised, the [id()] of
    [Make<T>()] is what [Get<T>()] returns (and that call allocates
    nothing), and [name()] and [TypeName<T>()] are the spelling of the type
    in its registration. *)
Theorem handle_reports_id_and_name (g : Globals) (T : CxxType) :
  reachable g -> registry g T <> None ->
  Id T g = Ok (id g (Make T), g) /\
  name g (Make T) = Some (_TypeName T) /\
  TypeName g T = Some (_TypeName T).
Proof.
  intros R N. split.
  - apply id_of_Id_returns. exact (record_id_of g T R N).
  - destruct (reachable_wf g R) as [_ W].
    unfold name, TypeName, deref. cbn [data_ Make].
    destruct (registry g T) as [r | ] eqn:C; [ | contradiction].
    destruct (W T r C) as [(_ & Nm & _) _]. split; exact Nm.
Qed.

(** X8.  In a run, for two types whose records are initialised, the
    handles are equal exactly when their ids are equal; and the id of an
    initialised record is never the one of a default-constructed handle. *)
Theorem handles_equal_iff_ids_equal (g : Globals) (T U : CxxType) :
  reachable g -> registry g T <> None -> registry g U <> None ->
  TypeIdentifier.eqb (id g (Make T)) (id g (Make U)) = eqb (Make T) (Make U) /\
  TypeIdentifier.eqb (id g (Make T)) (id g default) = false.
Proof.
  intros R NT NU. destruct (reachable_wf g R) as [W _].
  pose proof (record_id_of g T R NT) as IT.
  pose proof (record_id_of g U R NU) as IU.
  split.
  - unfold eqb. cbn [data_ Make StaticObject_eqb].
    destruct (CxxType_eq_dec T U) as [-> | ne].
    + rewrite CxxType_eqb_refl. unfold TypeIdentifier.eqb. apply Z.eqb_refl.
    + rewrite (CxxType_eqb_neq T U ne). unfold TypeIdentifier.eqb.
      apply Z.eqb_neq. intro E. apply underlyingId_inj in E.
      rewrite <- E in IU. exact (ne (id_of_inj (ids g) T U _ W IT IU)).
  - unfold TypeIdentifier.eqb. apply Z.eqb_neq.
    change (TypeIdentifier.underlyingId (id g default)) with 11.
    destruct (Id_inv T g g _ (id_of_Id_returns T g _ IT)) as [G _].
    pose proof (Get_result T _ _ _ W G) as Res.
    destruct (TypeIdentifier.preallocated_id T); lia.
Qed.

(** X9.  A record is never changed once it is initialised: after any number
    of further steps a handle reads the same record. *)
Theorem initialised_records_are_immutable (g g' : Globals) (T : CxxType) :
  steps g g' -> registry g T <> None ->
  deref g' (data_at T) = deref g (data_at T) /\
  id g' (Make T) = id g (Make T) /\
  itemsize g' (Make T) = itemsize g (Make T) /\
  ctor g' (Make T) = ctor g (Make T) /\
  copy g' (Make T) = copy g (Make T) /\
  dtor g' (Make T) = dtor g (Make T) /\
  name g' (Make T) = name g (Make T).
Proof.
  intros S N.
  assert (E : deref g' (data_at T) = deref g (data_at T)).
  { unfold deref. destruct (registry g T) as [r | ] eqn:C; [ | contradiction].
    rewrite (steps_keep_record g g' T r S C). reflexivity. }
  unfold id, itemsize, ctor, copy, dtor, name. cbn [data_ Make].
  rewrite E. repeat split.
Qed.

(** X10.  The record of a type of the reserved table can always be built:
    its initialisation returns in every state, also when the counter is
    exhausted, stores the reserved id and [sizeof(T)], and leaves the
    allocator's state alone. *)
Theorem reserved_record_is_always_built (g : Globals) (T : CxxType) (n : Z) :
  In (n, T) TypeIdentifier.preallocated -> registry g T = None ->
  exists r,
    initialize_data T g
      = Ok {| ids := ids g; registry := set_registry T r (registry g) |} /\
    id_ r = TypeIdentifier.make n /\ itemsize_ r = sizeof T.
Proof.
  intros Hin C. apply In_preallocated_id in Hin.
  unfold initialize_data. rewrite C.
  unfold TypeMetaDataRegistry_data.
  destruct (is_fundamental T || is_pointer T);
    unfold TypeIdentifier.bind, TypeIdentifier.ret;
    rewrite (Get_preallocated T n (ids g) Hin);
    eexists; (split; [reflexivity | split; reflexivity]).
Qed.

(** X11.  Of two identifiers exactly one of [lhs < rhs], [lhs == rhs] and
    [rhs < lhs] holds. *)
Theorem TypeIdentifier_lt_trichotomy (a b : TypeIdentifier.t) :
  (TypeIdentifier.lt a b = true /\ TypeIdentifier.eqb a b = false /\
   TypeIdentifier.lt b a = false) \/
  (TypeIdentifier.lt a b = false /\ TypeIdentifier.eqb a b = true /\
   TypeIdentifier.lt b a = false) \/
  (TypeIdentifier.lt a b = false /\ TypeIdentifier.eqb a b = false /\
   TypeIdentifier.lt b a = true).
Proof.
  unfold TypeIdentifier.lt, TypeIdentifier.eqb.
  destruct (Z.ltb_spec (TypeIdentifier.underlyingId a) (TypeIdentifier.underlyingId b));
    destruct (Z.ltb_spec (TypeIdentifier.underlyingId b) (TypeIdentifier.underlyingId a));
    destruct (Z.eqb_spec (TypeIdentifier.underlyingId a) (TypeIdentifier.underlyingId b));
    try lia; tauto.
Qed.

End HandleProperties.

(** ** The further properties on the example platform *)

Section FurtherExamples.
#[local] Existing Instance lp64.
Import detail TypeMeta.

(** X1 on two elements copied to a range apart from the source. *)
Lemma Copy_assigns_in_index_order_witness :
  exists m',
    _Copy Counter 0 5 2
      (store 0 (object 10) (store 1 (object 11) (fun _ => object 42))) = Ok m' /\
    (forall i, 0 <= i < Z.of_N 2 ->
       m' (5 + i)
       = store 0 (object 10) (store 1 (object 11) (fun _ => object 42)) (0 + i)) /\
    (forall q, ~ 5 <= q < 5 + Z.of_N 2 ->
       m' q = store 0 (object 10) (store 1 (object 11) (fun _ => object 42)) q).
Proof.
  apply (Copy_assigns_in_index_order Counter 0 5 2).
  right. simpl. lia.
Defined.

(** X2 on three elements copied one place up: the first element is
    repeated. *)
Lemma Copy_forward_overlap_repeats_witness :
  exists m',
    _Copy Counter 0 1 3
      (store 0 (object 10) (store 1 (object 11) (fun _ => object 42))) = Ok m' /\
    (forall i, 0 <= i < Z.of_N 3 ->
       m' (1 + i)
       = store 0 (object 10) (store 1 (object 11) (fun _ => object 42))
           (0 + i mod (1 - 0))) /\
    (forall q, ~ 1 <= q < 1 + Z.of_N 3 ->
       m' q = store 0 (object 10) (store 1 (object 11) (fun _ => object 42)) q).
Proof.
  apply (Copy_forward_overlap_repeats Counter 0 1 3).
  lia.
Defined.

Example Copy_one_place_up :
  match _Copy Counter 0 1 3
          (store 0 (object 10) (store 1 (object 11) (fun _ => object 42))) with
  | Ok m => map m [0; 1; 2; 3; 4]
            = [object 10; object 10; object 10; object 10; object 42]
  | Raise _ => False
  end.
Proof. reflexivity. Qed.

(** X5: [Counter] is registered first, then [Pod]; [Counter] keeps 28. *)
Lemma Get_keeps_returning_the_id_witness :
  Id Counter (then_Get lp64 Pod (then_Get lp64 Counter start))
  = Ok (TypeIdentifier.make 28, then_Get lp64 Pod (then_Get lp64 Counter start)).
Proof.
  apply (@Get_keeps_returning_the_id lp64 start (then_Get lp64 Counter start)).
  - reflexivity.
  - apply then_Get_steps.
Defined.

(** X6 on [Counter] and [Pod], registered one after the other. *)
Lemma different_types_have_different_ids_witness :
  TypeIdentifier.make 28 <> TypeIdentifier.make 29.
Proof.
  apply (@different_types_have_different_ids lp64 start
           (then_Get lp64 Counter start) (then_Get lp64 Counter start)
           (then_Get lp64 Pod (then_Get lp64 Counter start)) Counter Pod).
  - apply reachable_start.
  - discriminate.
  - reflexivity.
  - apply steps_refl.
  - reflexivity.
Defined.

(** X7 at [Counter], once its record is initialised. *)
Lemma handle_reports_id_and_name_witness :
  Id Counter (after_initialize lp64 Counter)
  = Ok (id (after_initialize lp64 Counter) (Make Counter),
        after_initialize lp64 Counter) /\
  name (after_initialize lp64 Counter) (Make Counter) = Some (_TypeName Counter) /\
  TypeName (after_initialize lp64 Counter) Counter = Some (_TypeName Counter).
Proof.
  apply (@handle_reports_id_and_name lp64 (after_initialize lp64 Counter) Counter).
  - apply after_initialize_reachable.
  - simpl. discriminate.
Defined.

(** X8 at [Counter] and [int], both initialised. *)
Lemma handles_equal_iff_ids_equal_witness :
  TypeIdentifier.eqb
    (id (then_initialize lp64 T_int (after_initialize lp64 Counter)) (Make Counter))
    (id (then_initialize lp64 T_int (after_initialize lp64 Counter)) (Make T_int))
  = eqb (Make Counter) (Make T_int) /\
  TypeIdentifier.eqb
    (id (then_initialize lp64 T_int (after_initialize lp64 Counter)) (Make Counter))
    (id (then_initialize lp64 T_int (after_initialize lp64 Counter)) default)
  = false.
Proof.
  apply (@handles_equal_iff_ids_equal lp64
           (then_initialize lp64 T_int (after_initialize lp64 Counter))
           Counter T_int).
  - apply (steps_reachable (after_initialize lp64 Counter)).
    + apply after_initialize_reachable.
    + apply then_initialize_steps.
  - simpl. discriminate.
  - simpl. discriminate.
Defined.

(** X9: the record of [Counter] after [Pod] has been registered. *)
Lemma initialised_records_are_immutable_witness :
  deref (then_Get lp64 Pod (after_initialize lp64 Counter)) (data_at Counter)
  = deref (after_initialize lp64 Counter) (data_at Counter) /\
  id (then_Get lp64 Pod (after_initialize lp64 Counter)) (Make Counter)
  = id (after_initialize lp64 Counter) (Make Counter) /\
  itemsize (then_Get lp64 Pod (after_initialize lp64 Counter)) (Make Counter)
  = itemsize (after_initialize lp64 Counter) (Make Counter) /\
  ctor (then_Get lp64 Pod (after_initialize lp64 Counter)) (Make Counter)
  = ctor (after_initialize lp64 Counter) (Make Counter) /\
  copy (then_Get lp64 Pod (after_initialize lp64 Counter)) (Make Counter)
  = copy (after_initialize lp64 Counter) (Make Counter) /\
  dtor (then_Get lp64 Pod (after_initialize lp64 Counter)) (Make Counter)
  = dtor (after_initialize lp64 Counter) (Make Counter) /\
  name (then_Get lp64 Pod (after_initialize lp64 Counter)) (Make Counter)
  = name (after_initialize lp64 Counter) (Make Counter).
Proof.
  apply (@initialised_records_are_immutable lp64
           (after_initialize lp64 Counter)
           (then_Get lp64 Pod (after_initialize lp64 Counter)) Counter).
  - apply then_Get_steps.
  - simpl. discriminate.
Defined.

(** X10 at [int], with the counter past the last id. *)
Lemma reserved_record_is_always_built_witness :
  exists r,
    initialize_data T_int
      {| ids := {| TypeIdentifier.counter := 65536;
                   TypeIdentifier.type_id := fun _ => None |};
         registry := fun _ => None |}
    = Ok {| ids := {| TypeIdentifier.counter := 65536;
                      TypeIdentifier.type_id := fun _ => None |};
            registry := set_registry T_int r (fun _ => None) |} /\
    id_ r = TypeIdentifier.make 3 /\ itemsize_ r = sizeof T_int.
Proof.
  apply (@reserved_record_is_always_built lp64
           {| ids := {| TypeIdentifier.counter := 65536;
                        TypeIdentifier.type_id := fun _ => None |};
              registry := fun _ => None |} T_int 3).
  - simpl. tauto.
  - reflexivity.
Defined.

End FurtherExamples.
